(** * ricoh-scanner.cc: the N-API binding over the PFU/Ricoh scanner SDK

    A shallow embedding of [public/downloads/scanner-app/native/ricoh-scanner.cc]
    and the properties of its four exported operations ([initialize],
    [getScanners], [scan], [cleanup]).

    The binding keeps two globals, [g_hScanner] and [g_bInitialized], reads
    the arguments of [scan] through node-addon-api, and calls into the
    vendor SDK declared in [PfuSsApi.h].  That header and the
    driver behind it are not part of the repository, so the SDK is an
    interface here ([PfuSsApi]): an unknown vendor state with one transition
    function per entry point.  Every vendor call made by the binding is
    recorded, with its arguments and the value the binding reads back, in a
    call log that is part of the modelled state. *)

From Stdlib Require Import ZArith String List Lia.
From stdpp Require Import base gmap strings list.

Local Open Scope string_scope.
Local Open Scope list_scope.
Local Open Scope Z_scope.

(** ** Machine integers *)

(** [DWORD] is an unsigned 32-bit integer, [int] a signed one; both are
    carried as [Z] with the conversions written out. *)
Definition DWORD := Z.
Definition HANDLE := Z.
Definition NULL : HANDLE := 0.

Definition INT_MAX : Z := 2147483647.

(** Reading a value into a [DWORD] variable. *)
Definition to_DWORD (z : Z) : DWORD := z mod 2 ^ 32.

(** The cast [(int)d]: the value modulo [2^32] that lies in the range of
    [int]. *)
Definition to_int (z : Z) : Z := (z + 2 ^ 31) mod 2 ^ 32 - 2 ^ 31.

(** ** Values handed to the scripting host *)

Inductive JSValue : Type :=
| JSBool (b : bool)
| JSNumber (n : Z)
| JSString (s : string).

(** A [Napi::Object] holding primitive properties, and a [Napi::Array] of
    such objects: the array is sparse, an index that was never set is
    absent. *)
Abbreviation JSObject := (gmap string JSValue).
Abbreviation JSArray := (gmap Z (gmap string JSValue)).

(** What an exported function hands back: a value, or a JavaScript
    exception raised during the call. *)
Inductive JSResult : Type :=
| JSObj (o : JSObject)
| JSArr (a : JSArray)
| JSUndefined
| JSException.

(** ** Values received from the scripting host *)

(** An argument of a call.  A finite number is the fraction [num/den]
    (every finite double is one); [InNotFinite] is [NaN] or an infinity;
    [InOther] is any remaining primitive (symbol, bigint). *)
#[local] Set Warnings "-register-all".

Inductive JSInput : Type :=
| InUndefined
| InNull
| InBool (b : bool)
| InNumber (num : Z) (den : positive)
| InNotFinite
| InString (s : string)
| InObject (props : gmap string JSInput)
| InOther.

(** [Napi::CallbackInfo]: the arguments of the call. *)
Abbreviation CallbackInfo := (list JSInput).

(** How a function of the binding ends: with its return value, or with
    the exception thrown by a node-addon-api conversion that failed. *)
Inductive Completion (A : Type) : Type :=
| Returned (a : A)
| Thrown.

Arguments Returned {A} a.
Arguments Thrown {A}.

(** ** Vendor structures (the fields the binding touches) *)

Record SS_DEVICE_INFO : Type := {
  szModelName : string;
  szSerialNumber : string
}.

Record SS_SCAN_PARAM : Type := {
  dwResolution : DWORD;
  dwPixelType : DWORD;
  dwDuplex : DWORD;
  dwPaperSize : DWORD
}.

(** [ZeroMemory(&deviceInfo, sizeof(SS_DEVICE_INFO))] *)
Definition zero_device_info : SS_DEVICE_INFO :=
  {| szModelName := EmptyString; szSerialNumber := EmptyString |}.

(** ** The vendor SDK, [PfuSsApi.h]

    The header is absent from the repository: its constants and entry
    points are the fields of this interface.  An output parameter is a
    value passed in and a value passed back.  The results of
    [PfuSsCloseDevice], [PfuSsFreeImageData] and [PfuSsUninitialize] are
    never read by the binding and are not modelled. *)
Class PfuSsApi : Type := {
  Sdk : Type;
  SS_IMAGE_DATA : Type;
  zero_image_data : SS_IMAGE_DATA;
  SS_SUCCESS : DWORD;
  SS_PIXELTYPE_COLOR : DWORD;
  SS_PIXELTYPE_GRAY : DWORD;
  SS_PIXELTYPE_BW : DWORD;
  SS_DUPLEX_ON : DWORD;
  SS_DUPLEX_OFF : DWORD;
  SS_PAPERSIZE_A4 : DWORD;
  PfuSsInitialize : Sdk -> Z * Sdk;
  PfuSsGetDeviceCount : DWORD -> Sdk -> Z * Z * Sdk;
  PfuSsGetDeviceInfo : DWORD -> SS_DEVICE_INFO -> Sdk -> Z * SS_DEVICE_INFO * Sdk;
  PfuSsOpenDevice : Z -> HANDLE -> Sdk -> Z * HANDLE * Sdk;
  PfuSsSetScanParam : HANDLE -> SS_SCAN_PARAM -> Sdk -> Z * Sdk;
  PfuSsStartScan : HANDLE -> Sdk -> Z * Sdk;
  PfuSsGetImageData : HANDLE -> SS_IMAGE_DATA -> Sdk -> Z * SS_IMAGE_DATA * Sdk;
  PfuSsFreeImageData : SS_IMAGE_DATA -> Sdk -> SS_IMAGE_DATA * Sdk;
  PfuSsCloseDevice : HANDLE -> Sdk -> Sdk;
  PfuSsUninitialize : Sdk -> Sdk
}.

(** One entry of the call log: the vendor entry point, its arguments and
    what the binding read back from it. *)
Inductive SdkCall : Type :=
| EvInitialize (ret : DWORD)
| EvGetDeviceCount (ret : DWORD) (count : DWORD)
| EvGetDeviceInfo (i : DWORD) (ret : DWORD) (info : SS_DEVICE_INFO)
| EvOpenDevice (id : Z) (ret : DWORD) (h : HANDLE)
| EvSetScanParam (h : HANDLE) (p : SS_SCAN_PARAM) (ret : DWORD)
| EvStartScan (h : HANDLE) (ret : DWORD)
| EvGetImageData (h : HANDLE) (ret : DWORD)
| EvFreeImageData
| EvCloseDevice (h : HANDLE)
| EvUninitialize.

(** The five local variables of [Scan] that hold the options, lines
    102-106. *)
Record ScanOptions : Type := {
  scannerId : Z;
  resolution : Z;
  colorMode : string;
  duplex : bool;
  outputPath : string
}.

(** ** node-addon-api, as [Scan] uses it

    The library is not part of the repository.  Its conversions are
    taken as documented, for a build with C++ exceptions: a conversion
    applied to a value of another type throws, and the exception ends the
    native function.  [None] below is such a throw. *)

(** [info[i]]: a missing argument reads as [undefined]. *)
Definition arg (info : CallbackInfo) (i : nat) : JSInput :=
  default InUndefined (info !! i).

(** [Napi::Object::Get(key)].  [undefined] and [null] have no
    properties and make it throw; a missing property, and any property
    of a primitive other than those (none of the five keys is one), reads
    as [undefined]. *)
Definition Get (o : JSInput) (key : string) : option JSInput :=
  match o with
  | InUndefined | InNull => None
  | InObject props => Some (default InUndefined (props !! key))
  | _ => Some InUndefined
  end.

(** [Napi::Number::Int32Value()]: the number truncated towards zero and
    reduced to 32 bits; [0] for a number that is not finite. *)
Definition Int32Value (v : JSInput) : option Z :=
  match v with
  | InNumber num den => Some (to_int (Z.quot num (Z.pos den)))
  | InNotFinite => Some 0
  | _ => None
  end.

(** [Napi::String::Utf8Value()] *)
Definition Utf8Value (v : JSInput) : option string :=
  match v with
  | InString s => Some s
  | _ => None
  end.

(** [Napi::Boolean::Value()] *)
Definition Value (v : JSInput) : option bool :=
  match v with
  | InBool b => Some b
  | _ => None
  end.

(** Lines 100-106 of [Scan]: the options object is read property by
    property, in this order. *)
Definition read_options (info : CallbackInfo) : option ScanOptions :=
  let options := arg info 0 in
  v ← Get options "scannerId"; scannerId ← Int32Value v;
  v ← Get options "resolution"; resolution ← Int32Value v;
  v ← Get options "colorMode"; colorMode ← Utf8Value v;
  v ← Get options "duplex"; duplex ← Value v;
  v ← Get options "outputPath"; outputPath ← Utf8Value v;
  Some {| scannerId := scannerId; resolution := resolution;
          colorMode := colorMode; duplex := duplex;
          outputPath := outputPath |}.

Section Binding.

Context {api : PfuSsApi}.

(** ** Program state: the two globals, the vendor and the call log *)

Record State : Type := {
  g_hScanner : HANDLE;
  g_bInitialized : bool;
  sdk : Sdk;
  calls : list SdkCall
}.

Definition M (A : Type) : Type := State -> A * State.

Definition ret {A} (a : A) : M A := fun st => (a, st).

Definition bind {A B} (m : M A) (k : A -> M B) : M B :=
  fun st => let (a, st1) := m st in k a st1.

Notation "'let*' x ':=' m 'in' k" := (bind m (fun x => k))
  (at level 10, x pattern, m at level 100, k at level 200).

(** The vendor moved to [s] and the call [e] was logged. *)
Definition vendor (s : Sdk) (e : SdkCall) (st : State) : State :=
  {| g_hScanner := g_hScanner st; g_bInitialized := g_bInitialized st;
     sdk := s; calls := calls st ++ [e] |}.

Definition read_g_hScanner : M HANDLE := fun st => (g_hScanner st, st).
Definition read_g_bInitialized : M bool := fun st => (g_bInitialized st, st).

Definition write_g_hScanner (h : HANDLE) : M unit := fun st =>
  (tt, {| g_hScanner := h; g_bInitialized := g_bInitialized st;
          sdk := sdk st; calls := calls st |}).

Definition write_g_bInitialized (b : bool) : M unit := fun st =>
  (tt, {| g_hScanner := g_hScanner st; g_bInitialized := b;
          sdk := sdk st; calls := calls st |}).

(** ** The vendor calls as the binding makes them *)

Definition call_PfuSsInitialize : M DWORD := fun st =>
  let '(r, s) := PfuSsInitialize (sdk st) in
  (to_DWORD r, vendor s (EvInitialize (to_DWORD r)) st).

(** [PfuSsGetDeviceCount(&dwScannerCount)], the variable holding [count0]
    before the call. *)
Definition call_PfuSsGetDeviceCount (count0 : DWORD) : M (DWORD * DWORD) := fun st =>
  let '(r, n, s) := PfuSsGetDeviceCount count0 (sdk st) in
  ((to_DWORD r, to_DWORD n), vendor s (EvGetDeviceCount (to_DWORD r) (to_DWORD n)) st).

Definition call_PfuSsGetDeviceInfo (i : DWORD) (info0 : SS_DEVICE_INFO)
  : M (DWORD * SS_DEVICE_INFO) := fun st =>
  let '(r, info, s) := PfuSsGetDeviceInfo i info0 (sdk st) in
  ((to_DWORD r, info), vendor s (EvGetDeviceInfo i (to_DWORD r) info) st).

(** [PfuSsOpenDevice(scannerId, &g_hScanner)]: the vendor writes the
    global through the pointer. *)
Definition call_PfuSsOpenDevice (id : Z) : M DWORD := fun st =>
  let '(r, h, s) := PfuSsOpenDevice id (g_hScanner st) (sdk st) in
  (to_DWORD r,
   {| g_hScanner := h; g_bInitialized := g_bInitialized st;
      sdk := s; calls := calls st ++ [EvOpenDevice id (to_DWORD r) h] |}).

Definition call_PfuSsSetScanParam (h : HANDLE) (p : SS_SCAN_PARAM) : M DWORD := fun st =>
  let '(r, s) := PfuSsSetScanParam h p (sdk st) in
  (to_DWORD r, vendor s (EvSetScanParam h p (to_DWORD r)) st).

Definition call_PfuSsStartScan (h : HANDLE) : M DWORD := fun st =>
  let '(r, s) := PfuSsStartScan h (sdk st) in
  (to_DWORD r, vendor s (EvStartScan h (to_DWORD r)) st).

Definition call_PfuSsGetImageData (h : HANDLE) (img0 : SS_IMAGE_DATA)
  : M (DWORD * SS_IMAGE_DATA) := fun st =>
  let '(r, img, s) := PfuSsGetImageData h img0 (sdk st) in
  ((to_DWORD r, img), vendor s (EvGetImageData h (to_DWORD r)) st).

Definition call_PfuSsFreeImageData (img0 : SS_IMAGE_DATA) : M SS_IMAGE_DATA := fun st =>
  let '(img, s) := PfuSsFreeImageData img0 (sdk st) in
  (img, vendor s EvFreeImageData st).

Definition call_PfuSsCloseDevice (h : HANDLE) : M unit := fun st =>
  (tt, vendor (PfuSsCloseDevice h (sdk st)) (EvCloseDevice h) st).

Definition call_PfuSsUninitialize : M unit := fun st =>
  (tt, vendor (PfuSsUninitialize (sdk st)) EvUninitialize st).

(** ** [Initialize] (lines 19-44) *)

Definition Initialize : M JSObject :=
  let result : JSObject := ∅ in
  let* initialized := read_g_bInitialized in
  if initialized then
    let result := <["success" := JSBool true]> result in
    let result := <["message" := JSString "Already initialized"]> result in
    ret result
  else
    let* dwRet := call_PfuSsInitialize in
    if negb (dwRet =? SS_SUCCESS) then
      let result := <["success" := JSBool false]> result in
      let result := <["error" := JSString "Failed to initialize Ricoh SDK"]> result in
      let result := <["errorCode" := JSNumber (to_int dwRet)]> result in
      ret result
    else
      let* _ := write_g_bInitialized true in
      let result := <["success" := JSBool true]> result in
      let result := <["message" := JSString "Ricoh SDK initialized successfully"]> result in
      ret result.

(** ** [GetScanners] (lines 49-84) *)

(** The object built at lines 73-77 for device [i]. *)
Definition scanner_object (i : DWORD) (deviceInfo : SS_DEVICE_INFO) : JSObject :=
  let scanner : JSObject := ∅ in
  let scanner := <["id" := JSNumber (to_int i)]> scanner in
  let scanner := <["name" := JSString (szModelName deviceInfo)]> scanner in
  let scanner := <["vendor" := JSString "Ricoh/Fujitsu"]> scanner in
  let scanner := <["serialNumber" := JSString (szSerialNumber deviceInfo)]> scanner in
  scanner.

(** The loop at lines 66-81, from index [i]; [rounds] bounds the number
    of iterations still allowed, and [GetScanners] passes the device
    count, which the loop never exceeds. *)
Fixpoint enumerate (rounds : nat) (i dwScannerCount : DWORD) (scanners : JSArray)
  : M JSArray :=
  match rounds with
  | O => ret scanners
  | S rounds' =>
    if i <? dwScannerCount then
      let deviceInfo := zero_device_info in
      let* (dwRet, deviceInfo) := call_PfuSsGetDeviceInfo i deviceInfo in
      let scanners :=
        if dwRet =? SS_SUCCESS
        then <[i := scanner_object i deviceInfo]> scanners
        else scanners in
      enumerate rounds' (to_DWORD (i + 1)) dwScannerCount scanners
    else ret scanners
  end.

Definition GetScanners : M JSArray :=
  let scanners : JSArray := ∅ in
  let* initialized := read_g_bInitialized in
  if negb initialized then ret scanners
  else
    let dwScannerCount := 0 in
    let* (dwRet, dwScannerCount) := call_PfuSsGetDeviceCount dwScannerCount in
    if negb (dwRet =? SS_SUCCESS) || (dwScannerCount =? 0) then ret scanners
    else enumerate (Z.to_nat dwScannerCount) 0 dwScannerCount scanners.

(** ** [Scan] (lines 89-186)

    The fuel, and the [None] it may give, are explained at [pull_pages];
    [Thrown] is the exception of a conversion at lines 100-106. *)

(** Lines 119-137: the zeroed [SS_SCAN_PARAM] with its four assignments. *)
Definition scan_param (options : ScanOptions) : SS_SCAN_PARAM :=
  {| dwResolution := to_DWORD (resolution options);
     dwPixelType :=
       if String.eqb (colorMode options) "color" then SS_PIXELTYPE_COLOR
       else if String.eqb (colorMode options) "grayscale" then SS_PIXELTYPE_GRAY
       else SS_PIXELTYPE_BW;
     dwDuplex := if duplex options then SS_DUPLEX_ON else SS_DUPLEX_OFF;
     dwPaperSize := SS_PAPERSIZE_A4 |}.

(** The loop at lines 167-175.  It runs for as long as the vendor reports
    success, so the model is bounded by [fuel], the number of times the
    loop condition may be evaluated; [None] is a run that did not come to
    its end within the bound.  [pageCount++] on an [int] is written with
    its 32-bit wrap-around (the behaviour is undefined in C++ beyond
    [INT_MAX]; no statement below relies on it). *)
Fixpoint pull_pages (fuel : nat) (pageCount : Z) (imageData : SS_IMAGE_DATA)
  : M (option Z) :=
  match fuel with
  | O => ret None
  | S fuel' =>
    let* h := read_g_hScanner in
    let* (dwRet, imageData) := call_PfuSsGetImageData h imageData in
    if dwRet =? SS_SUCCESS then
      let pageCount := to_int (pageCount + 1) in
      let* imageData := call_PfuSsFreeImageData imageData in
      pull_pages fuel' pageCount imageData
    else ret (Some pageCount)
  end.

Definition Scan (fuel : nat) (info : CallbackInfo)
  : M (option (Completion JSObject)) :=
  let result : JSObject := ∅ in
  let* initialized := read_g_bInitialized in
  if negb initialized then
    let result := <["success" := JSBool false]> result in
    let result := <["error" := JSString "SDK not initialized"]> result in
    ret (Some (Returned result))
  else
    match read_options info with
    | None => ret (Some Thrown)
    | Some options =>
      let* dwRet := call_PfuSsOpenDevice (scannerId options) in
      if negb (dwRet =? SS_SUCCESS) then
        let result := <["success" := JSBool false]> result in
        let result := <["error" := JSString "Failed to open scanner"]> result in
        let result := <["errorCode" := JSNumber (to_int dwRet)]> result in
        ret (Some (Returned result))
      else
        let scanParam := scan_param options in
        let* h := read_g_hScanner in
        let* dwRet := call_PfuSsSetScanParam h scanParam in
        if negb (dwRet =? SS_SUCCESS) then
          let* h := read_g_hScanner in
          let* _ := call_PfuSsCloseDevice h in
          let result := <["success" := JSBool false]> result in
          let result := <["error" := JSString "Failed to set scan parameters"]> result in
          let result := <["errorCode" := JSNumber (to_int dwRet)]> result in
          ret (Some (Returned result))
        else
          let* h := read_g_hScanner in
          let* dwRet := call_PfuSsStartScan h in
          if negb (dwRet =? SS_SUCCESS) then
            let* h := read_g_hScanner in
            let* _ := call_PfuSsCloseDevice h in
            let result := <["success" := JSBool false]> result in
            let result := <["error" := JSString "Failed to start scan"]> result in
            let result := <["errorCode" := JSNumber (to_int dwRet)]> result in
            ret (Some (Returned result))
          else
            let imageData := zero_image_data in
            let pageCount := 0 in
            let* done := pull_pages fuel pageCount imageData in
            match done with
            | None => ret None
            | Some pageCount =>
              let* h := read_g_hScanner in
              let* _ := call_PfuSsCloseDevice h in
              let* _ := write_g_hScanner NULL in
              let result := <["success" := JSBool true]> result in
              let result := <["pageCount" := JSNumber pageCount]> result in
              let result := <["outputPath" := JSString (outputPath options)]> result in
              ret (Some (Returned result))
            end
    end.

(** ** [Cleanup] (lines 191-201) *)

Definition Cleanup : M unit :=
  let* h := read_g_hScanner in
  let* _ :=
    if negb (h =? NULL) then
      let* _ := call_PfuSsCloseDevice h in
      write_g_hScanner NULL
    else ret tt in
  let* initialized := read_g_bInitialized in
  if initialized then
    let* _ := call_PfuSsUninitialize in
    write_g_bInitialized false
  else ret tt.

(** ** The export table (lines 206-213) *)

Inductive Exported : Type :=
| initialize
| getScanners
| scan (info : CallbackInfo)
| cleanup.

(** Calling an exported function from the host; [fuel] only matters to
    [scan]. *)
Definition call (f : Exported) (fuel : nat) : M (option JSResult) :=
  match f with
  | initialize => let* result := Initialize in ret (Some (JSObj result))
  | getScanners => let* scanners := GetScanners in ret (Some (JSArr scanners))
  | scan info =>
      let* result := Scan fuel info in
      ret ((fun c => match c with
                     | Returned o => JSObj o
                     | Thrown => JSException
                     end) <$> result)
  | cleanup => let* _ := Cleanup in ret (Some JSUndefined)
  end.

(** ** Vocabulary of the statements *)

(** The vendor calls made while the program went from [st] to [st']. *)
Definition issued (st st' : State) : list SdkCall :=
  drop (length (calls st)) (calls st').

(** The return code the binding read from a vendor call, for the calls
    whose result it reads. *)
Definition ret_code (e : SdkCall) : option DWORD :=
  match e with
  | EvInitialize r | EvGetDeviceCount r _ | EvGetDeviceInfo _ r _
  | EvOpenDevice _ r _ | EvSetScanParam _ _ r | EvStartScan _ r
  | EvGetImageData _ r => Some r
  | EvFreeImageData | EvCloseDevice _ | EvUninitialize => None
  end.

(** The calls that set a session up: initialise, open, configure, start. *)
Definition is_setup_call (e : SdkCall) : bool :=
  match e with
  | EvInitialize _ | EvOpenDevice _ _ _ | EvSetScanParam _ _ _ | EvStartScan _ _ => true
  | _ => false
  end.

Definition is_close (e : SdkCall) : bool :=
  match e with EvCloseDevice _ => true | _ => false end.

(** How many times a device was closed in a run. *)
Definition closes (evs : list SdkCall) : nat :=
  length (List.filter is_close evs).

(** A result record that reports a failure with the given vendor code. *)
Definition reports_failure (r : option JSResult) (code : DWORD) : Prop :=
  exists o : JSObject,
    r = Some (JSObj o) /\
    o !! "success" = Some (JSBool false) /\
    o !! "errorCode" = Some (JSNumber (to_int code)).

(** [n] pages pulled from device [h]: each a successful
    [PfuSsGetImageData] followed by [PfuSsFreeImageData]. *)
Fixpoint pulled (h : HANDLE) (n : nat) : list SdkCall :=
  match n with
  | O => []
  | S n' => EvGetImageData h SS_SUCCESS :: EvFreeImageData :: pulled h n'
  end.

(** The call sequences of a [scan] that came to its end. *)
Inductive ScanTrace (id : Z) (p : SS_SCAN_PARAM) : list SdkCall -> Prop :=
| trace_open_failed r h :
    r <> SS_SUCCESS ->
    ScanTrace id p [EvOpenDevice id r h]
| trace_configure_failed h r :
    r <> SS_SUCCESS ->
    ScanTrace id p
      [EvOpenDevice id SS_SUCCESS h; EvSetScanParam h p r; EvCloseDevice h]
| trace_start_failed h r :
    r <> SS_SUCCESS ->
    ScanTrace id p
      [EvOpenDevice id SS_SUCCESS h; EvSetScanParam h p SS_SUCCESS;
       EvStartScan h r; EvCloseDevice h]
| trace_scanned h n r :
    r <> SS_SUCCESS ->
    ScanTrace id p
      ([EvOpenDevice id SS_SUCCESS h; EvSetScanParam h p SS_SUCCESS;
        EvStartScan h SS_SUCCESS]
       ++ pulled h n ++ [EvGetImageData h r; EvCloseDevice h]).

(** From [st] the vendor hands over exactly [n] pages and then reports a
    non-success code, leaving the program in [st']. *)
Inductive pages_delivered : nat -> SS_IMAGE_DATA -> State -> State -> Prop :=
| delivered_none img st r img' st' :
    call_PfuSsGetImageData (g_hScanner st) img st = ((r, img'), st') ->
    r <> SS_SUCCESS ->
    pages_delivered O img st st'
| delivered_page n img st img1 st1 img2 st2 st' :
    call_PfuSsGetImageData (g_hScanner st) img st = ((SS_SUCCESS, img1), st1) ->
    call_PfuSsFreeImageData img1 st1 = (img2, st2) ->
    pages_delivered n img2 st2 st' ->
    pages_delivered (S n) img st st'.

(** [pageCount++] repeated. *)
Definition count_up (n : nat) (pageCount : Z) : Z :=
  Nat.iter n (fun c => to_int (c + 1)) pageCount.

(** The device-info queries for the indices from [i] on, with the
    vendor's answers. *)
Fixpoint queries (i : DWORD) (answers : list (DWORD * SS_DEVICE_INFO)) : list SdkCall :=
  match answers with
  | [] => []
  | (r, info) :: rest => EvGetDeviceInfo i r info :: queries (i + 1) rest
  end.

(** The records [Scan] and [Initialize] build on their failure paths, and
    the record of a finished scan. *)
Definition failure_record (message : string) (code : DWORD) : JSObject :=
  <["errorCode" := JSNumber (to_int code)]>
    (<["error" := JSString message]> (<["success" := JSBool false]> ∅)).

Definition scanned_record (pageCount : Z) (path : string) : JSObject :=
  <["outputPath" := JSString path]>
    (<["pageCount" := JSNumber pageCount]> (<["success" := JSBool true]> ∅)).

End Binding.

(** ** A scripted SDK

    A vendor whose answers are fixed in advance, to run the binding on
    concrete inputs.  [SS_SUCCESS] is [0]; every other constant is an
    arbitrary choice for the runs below. *)

Record Script : Type := {
  init_code : Z;
  count_code : Z;
  devices : list (Z * SS_DEVICE_INFO);
  open_code : Z;
  open_handle : HANDLE;
  param_code : Z;
  start_code : Z;
  pages : nat
}.

Definition take_page (s : Script) : Script :=
  {| init_code := init_code s; count_code := count_code s; devices := devices s;
     open_code := open_code s; open_handle := open_handle s;
     param_code := param_code s; start_code := start_code s;
     pages := Nat.pred (pages s) |}.

#[local] Instance scripted : PfuSsApi := {|
  Sdk := Script;
  SS_IMAGE_DATA := unit;
  zero_image_data := tt;
  SS_SUCCESS := 0;
  SS_PIXELTYPE_COLOR := 2;
  SS_PIXELTYPE_GRAY := 1;
  SS_PIXELTYPE_BW := 0;
  SS_DUPLEX_ON := 1;
  SS_DUPLEX_OFF := 0;
  SS_PAPERSIZE_A4 := 4;
  PfuSsInitialize := fun s => (init_code s, s);
  PfuSsGetDeviceCount := fun count0 s =>
    (count_code s,
     if count_code s =? 0 then Z.of_nat (length (devices s)) else count0, s);
  PfuSsGetDeviceInfo := fun i info0 s =>
    match devices s !! Z.to_nat i with
    | Some (r, info) => (r, info, s)
    | None => (1, info0, s)
    end;
  PfuSsOpenDevice := fun _ h0 s =>
    (open_code s, if open_code s =? 0 then open_handle s else h0, s);
  PfuSsSetScanParam := fun _ _ s => (param_code s, s);
  PfuSsStartScan := fun _ s => (start_code s, s);
  PfuSsGetImageData := fun _ img s =>
    match pages s with
    | O => (1, img, s)
    | S _ => (0, img, take_page s)
    end;
  PfuSsFreeImageData := fun img s => (img, s);
  PfuSsCloseDevice := fun _ s => s;
  PfuSsUninitialize := fun s => s
|}.

(** Two attached devices, the second of which cannot be queried, and
    three sheets in the feeder. *)
Definition office : Script :=
  {| init_code := 0; count_code := 0;
     devices := [(0, {| szModelName := "fi-7160"; szSerialNumber := "A1" |});
                 (5, {| szModelName := EmptyString; szSerialNumber := EmptyString |})];
     open_code := 0; open_handle := 42;
     param_code := 0; start_code := 0; pages := 3 |}.

(** The same installation with a driver that rejects the scan parameters. *)
Definition office_bad_param : Script :=
  {| init_code := 0; count_code := 0; devices := devices office;
     open_code := 0; open_handle := 42;
     param_code := 7; start_code := 0; pages := 3 |}.

(** No driver answering: the device count cannot be read. *)
Definition unplugged : Script :=
  {| init_code := 0; count_code := 5; devices := [];
     open_code := 9; open_handle := 0;
     param_code := 0; start_code := 0; pages := 0 |}.

(** The program before its first call, over a scripted vendor. *)
Definition boot (s : Script) : State :=
  {| g_hScanner := NULL; g_bInitialized := false; sdk := s; calls := [] |}.

(** The program once [initialize] has succeeded. *)
Definition ready (s : Script) : State :=
  {| g_hScanner := NULL; g_bInitialized := true; sdk := s; calls := [] |}.

Definition a_scan : ScanOptions :=
  {| scannerId := 0; resolution := 300; colorMode := "color";
     duplex := true; outputPath := "out.pdf" |}.

(** The call [scan({scannerId: 0, resolution: 300, colorMode: "color",
    duplex: true, outputPath: "out.pdf"})], whose options read as
    [a_scan]. *)
Definition a_scan_info : CallbackInfo :=
  [InObject
     (<["scannerId" := InNumber 0 1]>
        (<["resolution" := InNumber 300 1]>
           (<["colorMode" := InString "color"]>
              (<["duplex" := InBool true]>
                 (<["outputPath" := InString "out.pdf"]> ∅)))))].

(** An installation whose driver refuses to initialise. *)
Definition no_driver : Script :=
  {| init_code := 3; count_code := 0; devices := [];
     open_code := 0; open_handle := 42;
     param_code := 0; start_code := 0; pages := 0 |}.

(** A vendor like the scripted one whose feeder never runs empty:
    [PfuSsGetImageData] reports success on every call. *)
Definition endless : PfuSsApi := {|
  Sdk := Script;
  SS_IMAGE_DATA := unit;
  zero_image_data := tt;
  SS_SUCCESS := 0;
  SS_PIXELTYPE_COLOR := 2;
  SS_PIXELTYPE_GRAY := 1;
  SS_PIXELTYPE_BW := 0;
  SS_DUPLEX_ON := 1;
  SS_DUPLEX_OFF := 0;
  SS_PAPERSIZE_A4 := 4;
  PfuSsInitialize := fun s => (init_code s, s);
  PfuSsGetDeviceCount := fun count0 s => (count_code s, count0, s);
  PfuSsGetDeviceInfo := fun _ info0 s => (1, info0, s);
  PfuSsOpenDevice := fun _ h0 s =>
    (open_code s, if open_code s =? 0 then open_handle s else h0, s);
  PfuSsSetScanParam := fun _ _ s => (param_code s, s);
  PfuSsStartScan := fun _ s => (start_code s, s);
  PfuSsGetImageData := fun _ img s => (0, img, s);
  PfuSsFreeImageData := fun img s => (img, s);
  PfuSsCloseDevice := fun _ s => s;
  PfuSsUninitialize := fun s => s
|}.

(** The initialised program over the endless vendor. *)
Definition ready_endless (s : Script) : @State endless :=
  @Build_State endless NULL true s [].

(** A vendor that reports [2^31 + 1] attached devices and answers every
    device-info query. *)
Definition crowded : PfuSsApi := {|
  Sdk := unit;
  SS_IMAGE_DATA := unit;
  zero_image_data := tt;
  SS_SUCCESS := 0;
  SS_PIXELTYPE_COLOR := 2;
  SS_PIXELTYPE_GRAY := 1;
  SS_PIXELTYPE_BW := 0;
  SS_DUPLEX_ON := 1;
  SS_DUPLEX_OFF := 0;
  SS_PAPERSIZE_A4 := 4;
  PfuSsInitialize := fun s => (0, s);
  PfuSsGetDeviceCount := fun _ s => (0, 2147483649, s);
  PfuSsGetDeviceInfo := fun _ _ s =>
    (0, {| szModelName := "fi-7160"; szSerialNumber := "A1" |}, s);
  PfuSsOpenDevice := fun _ h0 s => (1, h0, s);
  PfuSsSetScanParam := fun _ _ s => (1, s);
  PfuSsStartScan := fun _ s => (1, s);
  PfuSsGetImageData := fun _ img s => (1, img, s);
  PfuSsFreeImageData := fun img s => (img, s);
  PfuSsCloseDevice := fun _ s => s;
  PfuSsUninitialize := fun s => s
|}.

(** The initialised program over the crowded vendor. *)
Definition ready_crowded : @State crowded :=
  @Build_State crowded NULL true tt [].

(** * Properties *)

Section Properties.

Context {api : PfuSsApi}.

(** ** Integer conversions *)

Lemma to_DWORD_range (z : Z) : 0 <= to_DWORD z < 2 ^ 32.
Proof. unfold to_DWORD. apply Z.mod_pos_bound. lia. Qed.

Lemma to_DWORD_small (z : Z) : 0 <= z < 2 ^ 32 -> to_DWORD z = z.
Proof. intros Hz. unfold to_DWORD. apply Z.mod_small. exact Hz. Qed.

Lemma to_int_small (z : Z) : 0 <= z <= INT_MAX -> to_int z = z.
Proof.
  unfold to_int, INT_MAX. intros Hz.
  rewrite Z.mod_small; lia.
Qed.

Lemma count_up_small (n : nat) (pageCount : Z) :
  0 <= pageCount -> pageCount + Z.of_nat n <= INT_MAX ->
  count_up n pageCount = pageCount + Z.of_nat n.
Proof.
  unfold count_up. induction n as [|n IH]; intros Hlo Hhi.
  - simpl. lia.
  - rewrite Nat.iter_succ, IH by lia.
    rewrite to_int_small; lia.
Qed.

Lemma count_up_shift (n : nat) (pageCount : Z) :
  count_up n (to_int (pageCount + 1)) = count_up (S n) pageCount.
Proof. unfold count_up. now rewrite Nat.iter_succ_r. Qed.

(** ** The call log only grows *)

(** Two spellings of one log, up to the bracketing of [++]. *)
Ltac same_log :=
  rewrite <- ?app_assoc; simpl; rewrite <- ?app_assoc, ?app_nil_r; reflexivity.

Lemma issued_app (st st' : State) (evs : list SdkCall) :
  calls st' = calls st ++ evs -> issued st st' = evs.
Proof. intros H. unfold issued. rewrite H. apply drop_app_length. Qed.

Lemma issued_none (st st' : State) : calls st' = calls st -> issued st st' = [].
Proof. intros H. apply issued_app. now rewrite app_nil_r. Qed.

(** ** The page loop *)

Lemma pull_pages_spec (fuel : nat) :
  forall (pageCount : Z) (imageData : SS_IMAGE_DATA) (st : State),
    let h := g_hScanner st in
    let st' := (pull_pages fuel pageCount imageData st).2 in
    g_hScanner st' = h /\ g_bInitialized st' = g_bInitialized st /\
    match (pull_pages fuel pageCount imageData st).1 with
    | Some pageCount' =>
        exists (n : nat) (r : DWORD),
          (n < fuel)%nat /\ r <> SS_SUCCESS /\
          calls st' = calls st ++ pulled h n ++ [EvGetImageData h r] /\
          pageCount' = count_up n pageCount
    | None => calls st' = calls st ++ pulled h fuel
    end.
Proof.
  induction fuel as [|fuel IH]; intros pageCount imageData st h.
  - simpl. now rewrite app_nil_r.
  - simpl. unfold bind, read_g_hScanner, call_PfuSsGetImageData.
    destruct (PfuSsGetImageData (g_hScanner st) imageData (sdk st)) as [[r img1] s1].
    destruct (to_DWORD r =? SS_SUCCESS) eqn:Hr.
    + apply Z.eqb_eq in Hr. unfold call_PfuSsFreeImageData. simpl.
      destruct (PfuSsFreeImageData img1 s1) as [img2 s2].
      match goal with
      | |- context [pull_pages fuel ?c ?i ?s] =>
          specialize (IH c i s); set (run := pull_pages fuel c i s) in *
      end.
      simpl in IH. destruct IH as (Hh & Hb & Hlog).
      repeat split; [exact Hh | exact Hb |].
      destruct run.1 as [pageCount'|].
      * destruct Hlog as (n & r' & Hn & Hr' & Hcalls & Hcount).
        exists (S n), r'. repeat split; [lia | exact Hr' | |].
        -- rewrite Hcalls, Hr. fold h. same_log.
        -- now rewrite Hcount, count_up_shift.
      * rewrite Hlog, Hr. fold h. same_log.
    + apply Z.eqb_neq in Hr. simpl. repeat split.
      exists O, (to_DWORD r). repeat split; [lia | exact Hr].
Qed.

(** With a vendor that hands over [n] pages, a bound above [n] is enough
    for the loop to come to its end. *)
Lemma pull_pages_delivered (n : nat) (imageData : SS_IMAGE_DATA) (st st' : State) :
  pages_delivered n imageData st st' ->
  forall (fuel : nat) (pageCount : Z),
    (n < fuel)%nat ->
    pull_pages fuel pageCount imageData st = (Some (count_up n pageCount), st').
Proof.
  induction 1 as [img st r img' st' Hget Hr
                 |n img st img1 st1 img2 st2 st' Hget Hfree _ IH];
    intros fuel pageCount Hfuel;
    (destruct fuel as [|fuel]; [lia|]);
    simpl; unfold bind, read_g_hScanner; rewrite Hget.
  - apply Z.eqb_neq in Hr. now rewrite Hr.
  - rewrite Z.eqb_refl, Hfree, IH by lia.
    now rewrite count_up_shift.
Qed.

(** ** Every run of [Scan] on an initialised SDK *)

Lemma Scan_cases
    (fuel : nat) (info : CallbackInfo) (options : ScanOptions) (st : State) :
  g_bInitialized st = true ->
  read_options info = Some options ->
  let id := scannerId options in
  let p := scan_param options in
  let res := (Scan fuel info st).1 in
  let st' := (Scan fuel info st).2 in
  g_bInitialized st' = true /\
  ((exists r h,
       r <> SS_SUCCESS /\ call_PfuSsOpenDevice id st = (r, st') /\
       g_hScanner st' = h /\
       res = Some (Returned (failure_record "Failed to open scanner" r)) /\
       calls st' = calls st ++ [EvOpenDevice id r h])
   \/ (exists r h,
       r <> SS_SUCCESS /\ g_hScanner st' = h /\
       res = Some (Returned (failure_record "Failed to set scan parameters" r)) /\
       calls st' = calls st ++
         [EvOpenDevice id SS_SUCCESS h; EvSetScanParam h p r; EvCloseDevice h])
   \/ (exists r h,
       r <> SS_SUCCESS /\ g_hScanner st' = h /\
       res = Some (Returned (failure_record "Failed to start scan" r)) /\
       calls st' = calls st ++
         [EvOpenDevice id SS_SUCCESS h; EvSetScanParam h p SS_SUCCESS;
          EvStartScan h r; EvCloseDevice h])
   \/ (exists r h n,
       r <> SS_SUCCESS /\ (n < fuel)%nat /\ g_hScanner st' = NULL /\
       res = Some (Returned (scanned_record (count_up n 0) (outputPath options))) /\
       calls st' = calls st ++
         [EvOpenDevice id SS_SUCCESS h; EvSetScanParam h p SS_SUCCESS;
          EvStartScan h SS_SUCCESS]
         ++ pulled h n ++ [EvGetImageData h r; EvCloseDevice h])
   \/ (exists h,
       res = None /\ g_hScanner st' = h /\
       calls st' = calls st ++
         [EvOpenDevice id SS_SUCCESS h; EvSetScanParam h p SS_SUCCESS;
          EvStartScan h SS_SUCCESS]
         ++ pulled h fuel)).
Proof.
  intros Hinit Hopts id p. unfold Scan, bind, read_g_bInitialized.
  rewrite Hinit. simpl. rewrite Hopts.
  unfold call_PfuSsOpenDevice. fold id.
  destruct (PfuSsOpenDevice id (g_hScanner st) (sdk st)) as [[r1 h] s1].
  destruct (to_DWORD r1 =? SS_SUCCESS) eqn:H1; simpl.
  2:{ apply Z.eqb_neq in H1. split; [exact Hinit|]. left.
      exists (to_DWORD r1), h. now repeat split. }
  apply Z.eqb_eq in H1. rewrite H1.
  unfold read_g_hScanner, call_PfuSsSetScanParam, call_PfuSsCloseDevice. simpl.
  fold p. destruct (PfuSsSetScanParam h p s1) as [r2 s2].
  destruct (to_DWORD r2 =? SS_SUCCESS) eqn:H2; simpl.
  2:{ apply Z.eqb_neq in H2. split; [exact Hinit|]. right; left.
      exists (to_DWORD r2), h. repeat split; [exact H2|].
      same_log. }
  apply Z.eqb_eq in H2. rewrite H2.
  unfold call_PfuSsStartScan. simpl.
  destruct (PfuSsStartScan h s2) as [r3 s3].
  destruct (to_DWORD r3 =? SS_SUCCESS) eqn:H3; simpl.
  2:{ apply Z.eqb_neq in H3. split; [exact Hinit|]. right; right; left.
      exists (to_DWORD r3), h. repeat split; [exact H3|].
      same_log. }
  apply Z.eqb_eq in H3. rewrite H3.
  match goal with
  | |- context [pull_pages fuel ?c ?i ?s] =>
      pose proof (pull_pages_spec fuel c i s) as Hloop;
      set (run := pull_pages fuel c i s) in *
  end.
  simpl in Hloop. destruct Hloop as (Hh & Hb & Hlog).
  destruct run as [[pageCount|] st4]; simpl in *.
  - destruct Hlog as (n & r & Hn & Hr & Hcalls & Hcount).
    split; [now rewrite Hb|]. right; right; right; left.
    exists r, h, n. repeat split; [exact Hr | exact Hn | now rewrite Hcount |].
    rewrite Hh, Hcalls. same_log.
  - split; [now rewrite Hb|]. right; right; right; right.
    exists h. repeat split; [exact Hh|].
    rewrite Hlog. same_log.
Qed.

(** ** The enumeration loop *)

Lemma In_queries (answers : list (DWORD * SS_DEVICE_INFO)) :
  forall (i j r : DWORD) (info : SS_DEVICE_INFO),
    In (EvGetDeviceInfo j r info) (queries i answers) <->
    exists k : nat, j = i + Z.of_nat k /\ answers !! k = Some (r, info).
Proof.
  induction answers as [|[r0 info0] rest IH]; intros i j r info; simpl.
  - split; [tauto | intros (k & _ & Hk); discriminate].
  - rewrite IH. split.
    + intros [Heq | (k & Hj & Hk)].
      * inversion Heq; subst. exists O. split; [lia | reflexivity].
      * exists (S k). split; [lia | exact Hk].
    + intros ([|k] & Hj & Hk); simpl in Hk.
      * left. inversion Hk; subst. f_equal. lia.
      * right. exists k. split; [lia | exact Hk].
Qed.

Lemma enumerate_spec (rounds : nat) :
  forall (i dwScannerCount : DWORD) (scanners : JSArray) (st : State),
    0 <= i -> i + Z.of_nat rounds = dwScannerCount -> dwScannerCount < 2 ^ 32 ->
    let arr := (enumerate rounds i dwScannerCount scanners st).1 in
    let st' := (enumerate rounds i dwScannerCount scanners st).2 in
    g_hScanner st' = g_hScanner st /\ g_bInitialized st' = g_bInitialized st /\
    exists answers : list (DWORD * SS_DEVICE_INFO),
      length answers = rounds /\
      calls st' = calls st ++ queries i answers /\
      (forall j, j < i \/ dwScannerCount <= j -> arr !! j = scanners !! j) /\
      (forall (k : nat) r info,
          answers !! k = Some (r, info) ->
          arr !! (i + Z.of_nat k) =
            if r =? SS_SUCCESS then Some (scanner_object (i + Z.of_nat k) info)
            else scanners !! (i + Z.of_nat k)).
Proof.
  induction rounds as [|rounds IH]; intros i cnt scanners st Hi Hcnt Hmax.
  - simpl. repeat split. exists []. repeat split.
    + now rewrite app_nil_r.
    + intros k r info Hk. discriminate.
  - simpl. assert ((i <? cnt) = true) as -> by (apply Z.ltb_lt; lia).
    unfold bind, call_PfuSsGetDeviceInfo.
    destruct (PfuSsGetDeviceInfo i zero_device_info (sdk st)) as [[r info] s1].
    rewrite (to_DWORD_small (i + 1)) by lia.
    match goal with
    | |- context [enumerate rounds ?a ?b ?c ?d] =>
        specialize (IH a b c d); set (run := enumerate rounds a b c d) in *
    end.
    destruct IH as (Hh & Hb & answers & Hlen & Hcalls & Hout & Hin); [lia..|].
    simpl in Hh, Hb, Hcalls. repeat split; [exact Hh | exact Hb |].
    exists ((to_DWORD r, info) :: answers). repeat split.
    + simpl. now rewrite Hlen.
    + rewrite Hcalls. same_log.
    + intros j Hj. rewrite Hout by lia.
      destruct (to_DWORD r =? SS_SUCCESS); [|reflexivity].
      apply lookup_insert_ne. lia.
    + intros [|k] r' info' Hk; simpl in Hk.
      * inversion Hk; subst. simpl. rewrite Z.add_0_r, Hout by lia.
        destruct (to_DWORD r =? SS_SUCCESS); [|reflexivity].
        apply lookup_insert_eq.
      * replace (i + Z.of_nat (S k)) with (i + 1 + Z.of_nat k) by lia.
        rewrite (Hin k r' info' Hk).
        destruct (r' =? SS_SUCCESS); [reflexivity|].
        destruct (to_DWORD r =? SS_SUCCESS); [|reflexivity].
        apply lookup_insert_ne. lia.
Qed.

(** ** Every run of [GetScanners] on an initialised SDK *)

Lemma GetScanners_cases (st : State) :
  g_bInitialized st = true ->
  let scanners := (GetScanners st).1 in
  let st' := (GetScanners st).2 in
  exists r n : DWORD,
    (call_PfuSsGetDeviceCount 0 st).1 = (r, n) /\
    g_hScanner st' = g_hScanner st /\ g_bInitialized st' = true /\
    (((r <> SS_SUCCESS \/ n = 0) /\
      scanners = ∅ /\ calls st' = calls st ++ [EvGetDeviceCount r n])
     \/ (r = SS_SUCCESS /\ 0 < n /\
         exists answers : list (DWORD * SS_DEVICE_INFO),
           length answers = Z.to_nat n /\
           calls st' = calls st ++ EvGetDeviceCount r n :: queries 0 answers /\
           (forall j, j < 0 \/ n <= j -> scanners !! j = None) /\
           (forall (k : nat) r' info,
               answers !! k = Some (r', info) ->
               scanners !! Z.of_nat k =
                 if r' =? SS_SUCCESS then Some (scanner_object (Z.of_nat k) info)
                 else None))).
Proof.
  intros Hinit. unfold GetScanners, bind, read_g_bInitialized. rewrite Hinit. simpl.
  unfold call_PfuSsGetDeviceCount.
  destruct (PfuSsGetDeviceCount 0 (sdk st)) as [[r n] s1]. simpl.
  exists (to_DWORD r), (to_DWORD n).
  pose proof (to_DWORD_range n) as Hn.
  destruct (to_DWORD r =? SS_SUCCESS) eqn:Hr; simpl.
  2:{ apply Z.eqb_neq in Hr. repeat split; [exact Hinit|]. left. tauto. }
  apply Z.eqb_eq in Hr.
  destruct (to_DWORD n =? 0) eqn:Hz; simpl.
  { apply Z.eqb_eq in Hz. repeat split; [exact Hinit|]. left. tauto. }
  apply Z.eqb_neq in Hz.
  match goal with
  | |- context [enumerate ?a ?b ?c ?d ?e] =>
      pose proof (enumerate_spec a b c d e) as Hloop;
      set (run := enumerate a b c d e) in *
  end.
  destruct Hloop as (Hh & Hb & answers & Hlen & Hcalls & Hout & Hin); [lia..|].
  simpl in Hh, Hb, Hcalls. repeat split; [exact Hh | now rewrite Hb |].
  right. repeat split; [exact Hr | lia |].
  exists answers. repeat split.
  - exact Hlen.
  - rewrite Hcalls. same_log.
  - intros j Hj. now rewrite Hout.
  - intros k r' info Hk. specialize (Hin k r' info Hk).
    rewrite Z.add_0_l, lookup_empty in Hin. exact Hin.
Qed.

(** ** [Cleanup] *)

Lemma Cleanup_cases (st : State) :
  let st' := (Cleanup st).2 in
  g_hScanner st' = NULL /\ g_bInitialized st' = false /\
  calls st' = calls st
    ++ (if g_hScanner st =? NULL then [] else [EvCloseDevice (g_hScanner st)])
    ++ (if g_bInitialized st then [EvUninitialize] else []).
Proof.
  unfold Cleanup, bind, read_g_hScanner, read_g_bInitialized. simpl.
  destruct (g_hScanner st =? NULL) eqn:Hh; simpl;
    destruct (g_bInitialized st) eqn:Hb; simpl;
    repeat split; try (apply Z.eqb_eq in Hh; exact Hh); try exact Hb;
    same_log.
Qed.

Lemma Cleanup_pristine (st : State) :
  g_hScanner st = NULL -> g_bInitialized st = false -> Cleanup st = (tt, st).
Proof.
  intros Hh Hb. unfold Cleanup, bind, read_g_hScanner, read_g_bInitialized, ret.
  simpl. rewrite Hh. simpl. rewrite Hb. reflexivity.
Qed.

(** C7. [Cleanup] always ends with [g_bInitialized = false] and
    [g_hScanner = NULL], whatever state it starts from, and it is
    idempotent: run again on the state it produced, it changes nothing,
    the call log included, so the second run makes no vendor call. *)
Theorem Cleanup_pristine_idempotent (st : State) :
  let st' := (Cleanup st).2 in
  g_bInitialized st' = false /\ g_hScanner st' = NULL /\
  Cleanup st' = (tt, st') /\ issued st' (Cleanup st').2 = [].
Proof.
  intros st'. destruct (Cleanup_cases st) as (Hh & Hb & _). fold st' in Hh, Hb.
  repeat split; [exact Hb | exact Hh | now apply Cleanup_pristine |].
  rewrite Cleanup_pristine by assumption. now apply issued_none.
Qed.

(** ** [Initialize] *)

Lemma Initialize_cases (st : State) :
  let st' := (Initialize st).2 in
  g_hScanner st' = g_hScanner st /\
  if g_bInitialized st then Initialize st =
    (<["message" := JSString "Already initialized"]>
       (<["success" := JSBool true]> ∅), st)
  else
    exists r : DWORD,
      (call_PfuSsInitialize st).1 = r /\
      calls st' = calls st ++ [EvInitialize r] /\
      if r =? SS_SUCCESS
      then g_bInitialized st' = true /\
           (Initialize st).1 =
             <["message" := JSString "Ricoh SDK initialized successfully"]>
               (<["success" := JSBool true]> ∅)
      else g_bInitialized st' = false /\
           (Initialize st).1 = failure_record "Failed to initialize Ricoh SDK" r.
Proof.
  unfold Initialize, bind, read_g_bInitialized. simpl.
  destruct (g_bInitialized st) eqn:Hb; [now split|].
  unfold call_PfuSsInitialize.
  destruct (PfuSsInitialize (sdk st)) as [r s1]. simpl.
  destruct (to_DWORD r =? SS_SUCCESS) eqn:Hr; simpl;
    (split; [reflexivity|]); exists (to_DWORD r); rewrite Hr; now repeat split.
Qed.

(** C8. On an SDK that is already initialised, [Initialize] returns the
    record [{success: true, message: "Already initialized"}], leaves the
    state as it was and makes no vendor call (no [PfuSsInitialize]). *)
Theorem Initialize_idempotent (st : State) :
  g_bInitialized st = true ->
  Initialize st =
    (<["message" := JSString "Already initialized"]>
       (<["success" := JSBool true]> ∅), st) /\
  issued st (Initialize st).2 = [].
Proof.
  intros Hb. pose proof (Initialize_cases st) as [_ H]. rewrite Hb in H.
  split; [exact H|]. rewrite H. now apply issued_none.
Qed.

(** ** The guards on [g_bInitialized] *)

Lemma GetScanners_uninitialized (st : State) :
  g_bInitialized st = false -> GetScanners st = (∅, st).
Proof.
  intros Hb. unfold GetScanners, bind, read_g_bInitialized. now rewrite Hb.
Qed.

Lemma Scan_uninitialized (fuel : nat) (info : CallbackInfo) (st : State) :
  g_bInitialized st = false ->
  Scan fuel info st =
    (Some (Returned (<["error" := JSString "SDK not initialized"]>
                       (<["success" := JSBool false]> ∅))), st).
Proof.
  intros Hb. unfold Scan, bind, read_g_bInitialized. now rewrite Hb.
Qed.

(** Options that do not convert end [Scan] with the exception, before
    any vendor call. *)
Lemma Scan_throws (fuel : nat) (info : CallbackInfo) (st : State) :
  g_bInitialized st = true ->
  read_options info = None ->
  Scan fuel info st = (Some Thrown, st).
Proof.
  intros Hb Hopts. unfold Scan, bind, read_g_bInitialized.
  rewrite Hb. simpl. now rewrite Hopts.
Qed.


(** C9. [GetScanners] reports nothing but an array: when the SDK is not
    initialised, when the device-count query fails, or when the count is
    zero, the host receives the empty array, the same value in the three
    cases and never a failure record; when the SDK is not initialised the
    state, call log included, is untouched, so no vendor call was made. *)
Theorem GetScanners_never_fails (st : State) (fuel : nat) :
  g_bInitialized st = false \/
  (call_PfuSsGetDeviceCount 0 st).1.1 <> SS_SUCCESS \/
  (call_PfuSsGetDeviceCount 0 st).1.2 = 0 ->
  (GetScanners st).1 = ∅ /\
  (call getScanners fuel st).1 = Some (JSArr ∅) /\
  (g_bInitialized st = false ->
   GetScanners st = (∅, st) /\ issued st (GetScanners st).2 = []).
Proof.
  intros H.
  assert ((GetScanners st).1 = ∅) as Hempty.
  { destruct (g_bInitialized st) eqn:Hb.
    - destruct (GetScanners_cases st Hb)
        as (r & n & Hq & _ & _ & [(_ & Harr & _) | (Hr & Hn & _)]);
        [exact Harr|].
      rewrite Hq in H. simpl in H.
      destruct H as [H | [H | H]]; [discriminate | contradiction | lia].
    - now rewrite GetScanners_uninitialized. }
  split; [exact Hempty|]. split.
  - unfold call, bind. destruct (GetScanners st) as [a st']. simpl in *.
    now rewrite Hempty.
  - intros Hb. rewrite GetScanners_uninitialized by exact Hb.
    split; [reflexivity | now apply issued_none].
Qed.

(** C5, as the code has it.  On an initialised SDK whose device-count
    query succeeds with count [dwScannerCount], every index [i] below the
    count is queried and has one answer [(r, info)] from the vendor.  When
    the query succeeded, position [i] of the returned array holds the
    record with [id] the index cast to [int] (line 74), which is [i]
    itself up to [INT_MAX] and [i - 2^32] above, [name] the reported
    model name, [vendor] ["Ricoh/Fujitsu"] and [serialNumber] the reported
    serial number; when it failed, position [i] holds nothing. *)
Theorem GetScanners_records (st : State) (dwScannerCount i : DWORD) :
  g_bInitialized st = true ->
  (call_PfuSsGetDeviceCount 0 st).1 = (SS_SUCCESS, dwScannerCount) ->
  0 <= i < dwScannerCount ->
  let scanners := (GetScanners st).1 in
  let evs := issued st (GetScanners st).2 in
  exists (r : DWORD) (info : SS_DEVICE_INFO),
    (forall r' info', In (EvGetDeviceInfo i r' info') evs <-> r' = r /\ info' = info) /\
    if r =? SS_SUCCESS then
      exists id : Z,
        id = to_int i /\
        (i <= INT_MAX -> id = i) /\
        (INT_MAX < i -> id = i - 2 ^ 32) /\
        scanners !! i =
          Some (<["serialNumber" := JSString (szSerialNumber info)]>
                  (<["vendor" := JSString "Ricoh/Fujitsu"]>
                     (<["name" := JSString (szModelName info)]>
                        (<["id" := JSNumber id]> ∅))))
    else scanners !! i = None.
Proof.
  intros Hinit Hcount Hi scanners evs.
  assert (dwScannerCount < 2 ^ 32) as Hrange.
  { pose proof Hcount as H. unfold call_PfuSsGetDeviceCount in H.
    destruct (PfuSsGetDeviceCount 0 (sdk st)) as [[a b] c]. simpl in H.
    inversion H. apply to_DWORD_range. }
  destruct (GetScanners_cases st Hinit)
    as (r0 & n & Hq & _ & _ & [([Hr | Hn] & _) | (_ & _ & answers & Hlen & Hc & _ & Hin)]);
    rewrite Hcount in Hq; inversion Hq; subst r0 n; [congruence | lia |].
  destruct (lookup_lt_is_Some_2 answers (Z.to_nat i)) as [[r info] Hk]; [lia|].
  exists r, info. split.
  - intros r' info'. unfold evs. rewrite (issued_app _ _ _ Hc). simpl.
    rewrite In_queries. split.
    + intros [Habs | (k & Hik & Hk')]; [discriminate|].
      assert (k = Z.to_nat i) as -> by lia.
      rewrite Hk in Hk'. now inversion Hk'.
    + intros [-> ->]. right. exists (Z.to_nat i). split; [lia | exact Hk].
  - specialize (Hin _ _ _ Hk). rewrite Z2Nat.id in Hin by lia. fold scanners in Hin.
    destruct (r =? SS_SUCCESS); [|exact Hin].
    exists (to_int i). split; [reflexivity|]. split; [|split; [|exact Hin]].
    + intros Hmax. apply to_int_small. lia.
    + intros Hmax. unfold to_int, INT_MAX in *.
      rewrite <- (Z_mod_plus_full (i + 2 ^ 31) (-1) (2 ^ 32)).
      rewrite Z.mod_small; lia.
Qed.

(** ** The order of the vendor calls in [Scan] *)

Lemma pulled_no_close (h : HANDLE) (n : nat) :
  List.filter is_close (pulled h n) = [].
Proof. induction n as [|n IH]; simpl; [reflexivity | exact IH]. Qed.

Lemma ScanTrace_closed_once (id : Z) (p : SS_SCAN_PARAM) (evs : list SdkCall) :
  ScanTrace id p evs ->
  forall h, head evs = Some (EvOpenDevice id SS_SUCCESS h) ->
            closes evs = 1%nat /\ last evs = Some (EvCloseDevice h).
Proof.
  intros [r h0 Hr | h0 r Hr | h0 r Hr | h0 n r Hr] h Hhead;
    simpl in Hhead; inversion Hhead; subst; try congruence;
    try (split; reflexivity).
  unfold closes. simpl. rewrite List.filter_app, pulled_no_close. split; [reflexivity|].
  change [EvGetImageData h r; EvCloseDevice h]
    with ([EvGetImageData h r] ++ [EvCloseDevice h]).
  rewrite !app_comm_cons, app_assoc. apply last_snoc.
Qed.

(** C3. A [Scan] on an initialised SDK, called with an options object
    that converts (to [options]), that came to its end made its vendor
    calls in the order open, configure, start, pull pages, close:
    the call sequence is one of the four of [ScanTrace], in which a step
    whose code is not [SS_SUCCESS] is followed by no later step, the page
    pulls go on up to the first code that is not [SS_SUCCESS] (each pulled
    page being released with [PfuSsFreeImageData]), and, whenever the open
    succeeded, the device is closed exactly once, as the last call.  A run
    still inside the page loop after [fuel] pages has made the calls up to
    there, all successful, and nothing else. *)
Theorem Scan_call_order
    (fuel : nat) (info : CallbackInfo) (options : ScanOptions) (st : State) :
  g_bInitialized st = true ->
  read_options info = Some options ->
  let id := scannerId options in
  let p := scan_param options in
  let evs := issued st (Scan fuel info st).2 in
  match (Scan fuel info st).1 with
  | Some _ =>
      ScanTrace id p evs /\
      forall h, head evs = Some (EvOpenDevice id SS_SUCCESS h) ->
                closes evs = 1%nat /\ last evs = Some (EvCloseDevice h)
  | None =>
      exists h, evs =
        [EvOpenDevice id SS_SUCCESS h; EvSetScanParam h p SS_SUCCESS;
         EvStartScan h SS_SUCCESS] ++ pulled h fuel
  end.
Proof.
  intros Hinit Hopts id p evs.
  assert (match (Scan fuel info st).1 with
          | Some _ => ScanTrace id p evs
          | None => exists h, evs =
              [EvOpenDevice id SS_SUCCESS h; EvSetScanParam h p SS_SUCCESS;
               EvStartScan h SS_SUCCESS] ++ pulled h fuel
          end) as H.
  { unfold evs.
    destruct (Scan_cases fuel info options st Hinit Hopts) as
      (_ & [(r & h & Hr & _ & _ & -> & Hc) | [(r & h & Hr & _ & -> & Hc)
         | [(r & h & Hr & _ & -> & Hc) | [(r & h & n & Hr & _ & _ & -> & Hc)
         | (h & -> & _ & Hc)]]]]);
      rewrite (issued_app _ _ _ Hc).
    - now apply trace_open_failed.
    - now apply trace_configure_failed.
    - now apply trace_start_failed.
    - now apply trace_scanned.
    - now exists h. }
  destruct ((Scan fuel info st).1); [|exact H].
  split; [exact H | now apply ScanTrace_closed_once with (p := p)].
Qed.

(** C4. For every options record [options] read from the call's
    argument, on an initialised SDK, when opening, configuring and
    starting all succeed and the vendor then hands over [n] pages before its first
    non-success answer ([n] within the range of the [int] counter), [Scan]
    comes to its end for every bound above [n], and returns the record
    [{success: true, pageCount: n, outputPath}] with the caller's
    [outputPath]. *)
Theorem Scan_success
    (fuel : nat) (info : CallbackInfo) (options : ScanOptions)
    (st st1 st2 st3 st4 : State) (n : nat) :
  g_bInitialized st = true ->
  read_options info = Some options ->
  call_PfuSsOpenDevice (scannerId options) st = (SS_SUCCESS, st1) ->
  call_PfuSsSetScanParam (g_hScanner st1) (scan_param options) st1 = (SS_SUCCESS, st2) ->
  call_PfuSsStartScan (g_hScanner st2) st2 = (SS_SUCCESS, st3) ->
  pages_delivered n zero_image_data st3 st4 ->
  Z.of_nat n <= INT_MAX ->
  (n < fuel)%nat ->
  (Scan fuel info st).1 =
    Some (Returned
            (<["outputPath" := JSString (outputPath options)]>
               (<["pageCount" := JSNumber (Z.of_nat n)]>
                  (<["success" := JSBool true]> ∅)))).
Proof.
  intros Hinit Hopts Hopen Hset Hstart Hpages Hmax Hfuel.
  unfold Scan, bind, read_g_bInitialized, read_g_hScanner.
  cbv beta iota. rewrite Hinit. cbn [negb]. rewrite Hopts.
  rewrite Hopen, Z.eqb_refl. cbn [negb]. cbv beta iota.
  rewrite Hset, Z.eqb_refl. cbn [negb]. cbv beta iota.
  rewrite Hstart, Z.eqb_refl. cbn [negb]. cbv beta iota.
  rewrite (pull_pages_delivered _ _ _ _ Hpages) by exact Hfuel.
  rewrite count_up_small by lia. reflexivity.
Qed.

(** ** The scan parameters *)

Lemma scan_param_fields (options : ScanOptions) :
  SS_PIXELTYPE_COLOR <> SS_PIXELTYPE_GRAY ->
  SS_PIXELTYPE_COLOR <> SS_PIXELTYPE_BW ->
  SS_PIXELTYPE_GRAY <> SS_PIXELTYPE_BW ->
  SS_DUPLEX_ON <> SS_DUPLEX_OFF ->
  let p := scan_param options in
  dwPaperSize p = SS_PAPERSIZE_A4 /\
  (dwPixelType p = SS_PIXELTYPE_COLOR <-> colorMode options = "color") /\
  (dwPixelType p = SS_PIXELTYPE_GRAY <-> colorMode options = "grayscale") /\
  (dwPixelType p = SS_PIXELTYPE_BW <->
     colorMode options <> "color" /\ colorMode options <> "grayscale") /\
  (dwDuplex p = SS_DUPLEX_ON <-> duplex options = true).
Proof.
  intros Hcg Hcb Hgb Hd. simpl.
  destruct (String.eqb_spec (colorMode options) "color") as [Hc | Hc];
    [|destruct (String.eqb_spec (colorMode options) "grayscale") as [Hg | Hg]];
    destruct (duplex options);
    repeat split; try tauto; try congruence;
    try (intros; rewrite Hc in *; discriminate).
Qed.

Lemma Scan_param_events
    (fuel : nat) (info : CallbackInfo) (options : ScanOptions) (st : State) :
  g_bInitialized st = true ->
  read_options info = Some options ->
  let evs := issued st (Scan fuel info st).2 in
  (forall h p r, In (EvSetScanParam h p r) evs -> p = scan_param options) /\
  ((call_PfuSsOpenDevice (scannerId options) st).1 = SS_SUCCESS ->
   exists h r, In (EvSetScanParam h (scan_param options) r) evs).
Proof.
  intros Hinit Hopts evs. unfold evs.
  assert (forall h n h' p r, ~ In (EvSetScanParam h' p r) (pulled h n)) as Hpull.
  { intros h n h' p r. induction n as [|n IH]; simpl; [tauto|].
    intros [H | [H | H]]; [discriminate | discriminate | tauto]. }
  destruct (Scan_cases fuel info options st Hinit Hopts) as
    (_ & [(r & h & Hr & Hopen & _ & _ & Hc) | [(r & h & _ & _ & _ & Hc)
       | [(r & h & _ & _ & _ & Hc) | [(r & h & n & _ & _ & _ & _ & Hc)
       | (h & _ & _ & Hc)]]]]);
    rewrite (issued_app _ _ _ Hc); split.
  all: try (intros h' p' r' Hin; rewrite ?in_app_iff in Hin; simpl in Hin;
            repeat match type of Hin with
                   | _ \/ _ => destruct Hin as [Hin | Hin]
                   end;
            try discriminate; try contradiction;
            try (now inversion Hin); now apply Hpull in Hin).
  - rewrite Hopen. simpl. congruence.
  - intros _. eexists _, _. simpl. right; left; reflexivity.
  - intros _. eexists _, _. simpl. right; left; reflexivity.
  - intros _. eexists _, _. simpl. right; left; reflexivity.
  - intros _. eexists _, _. simpl. right; left; reflexivity.
Qed.

(** C10. Whatever the options record [options] read from the call's
    argument, the parameters [Scan] hands to
    [PfuSsSetScanParam] have the paper size [SS_PAPERSIZE_A4], the pixel
    type [SS_PIXELTYPE_COLOR] exactly when [colorMode] is ["color"],
    [SS_PIXELTYPE_GRAY] exactly when it is ["grayscale"] and
    [SS_PIXELTYPE_BW] for every other string, and the duplex setting
    [SS_DUPLEX_ON] exactly when the [duplex] flag is true; and [Scan] does
    hand them over whenever the device opens.  The vendor's constants for
    the three pixel types, and for duplex on and off, are taken to be
    different values. *)
Theorem Scan_configures
    (fuel : nat) (info : CallbackInfo) (options : ScanOptions) (st : State) :
  SS_PIXELTYPE_COLOR <> SS_PIXELTYPE_GRAY ->
  SS_PIXELTYPE_COLOR <> SS_PIXELTYPE_BW ->
  SS_PIXELTYPE_GRAY <> SS_PIXELTYPE_BW ->
  SS_DUPLEX_ON <> SS_DUPLEX_OFF ->
  g_bInitialized st = true ->
  read_options info = Some options ->
  let evs := issued st (Scan fuel info st).2 in
  (forall h p r,
      In (EvSetScanParam h p r) evs ->
      dwPaperSize p = SS_PAPERSIZE_A4 /\
      (dwPixelType p = SS_PIXELTYPE_COLOR <-> colorMode options = "color") /\
      (dwPixelType p = SS_PIXELTYPE_GRAY <-> colorMode options = "grayscale") /\
      (dwPixelType p = SS_PIXELTYPE_BW <->
         colorMode options <> "color" /\ colorMode options <> "grayscale") /\
      (dwDuplex p = SS_DUPLEX_ON <-> duplex options = true)) /\
  ((call_PfuSsOpenDevice (scannerId options) st).1 = SS_SUCCESS ->
   exists h r, In (EvSetScanParam h (scan_param options) r) evs).
Proof.
  intros Hcg Hcb Hgb Hd Hinit Hopts evs.
  destruct (Scan_param_events fuel info options st Hinit Hopts) as [Hall Hex].
  split; [|exact Hex].
  intros h p r Hin. rewrite (Hall h p r Hin).
  now apply scan_param_fields.
Qed.

(** ** Failures of the vendor *)

Lemma failure_record_reports (message : string) (code : DWORD) :
  reports_failure (Some (JSObj (failure_record message code))) code.
Proof.
  exists (failure_record message code). unfold failure_record.
  repeat split; now simplify_map_eq.
Qed.

Lemma pulled_not_setup (h : HANDLE) (n : nat) (e : SdkCall) :
  In e (pulled h n) -> is_setup_call e = false.
Proof.
  induction n as [|n IH]; simpl; [tauto|].
  intros [<- | [<- | H]]; [reflexivity | reflexivity | now apply IH].
Qed.

Lemma queries_not_setup (answers : list (DWORD * SS_DEVICE_INFO)) :
  forall (i : DWORD) (e : SdkCall),
    In e (queries i answers) -> is_setup_call e = false.
Proof.
  induction answers as [|[r info] rest IH]; intros i e; simpl; [tauto|].
  intros [<- | H]; [reflexivity | now apply IH with (i := i + 1)].
Qed.

(** Splits a membership in a call log into its cases. *)
Ltac pick_event Hin :=
  rewrite ?in_app_iff in Hin; simpl in Hin;
  repeat match type of Hin with
         | _ \/ _ => destruct Hin as [Hin | Hin]
         end.

Lemma Scan_setup_failure
    (fuel : nat) (info : CallbackInfo) (st : State) (e : SdkCall) (code : DWORD) :
  In e (issued st (Scan fuel info st).2) ->
  is_setup_call e = true -> ret_code e = Some code -> code <> SS_SUCCESS ->
  exists message before after,
    (Scan fuel info st).1 = Some (Returned (failure_record message code)) /\
    issued st (Scan fuel info st).2 = before ++ e :: after /\
    (after = [] \/ exists h, after = [EvCloseDevice h]).
Proof.
  intros Hin Hsetup Hcode Hfail.
  destruct (g_bInitialized st) eqn:Hinit.
  2:{ rewrite Scan_uninitialized in Hin by exact Hinit.
      rewrite issued_none in Hin by reflexivity. destruct Hin. }
  destruct (read_options info) as [options|] eqn:Hopts.
  2:{ rewrite Scan_throws in Hin by assumption.
      rewrite issued_none in Hin by reflexivity. destruct Hin. }
  destruct (Scan_cases fuel info options st Hinit Hopts) as
    (_ & [(r & h & _ & _ & _ & Hres & Hc) | [(r & h & _ & _ & Hres & Hc)
       | [(r & h & _ & _ & Hres & Hc) | [(r & h & n & _ & _ & _ & Hres & Hc)
       | (h & Hres & _ & Hc)]]]]);
    rewrite (issued_app _ _ _ Hc) in *; pick_event Hin;
    try contradiction;
    try (apply pulled_not_setup in Hin; congruence);
    subst e; simpl in Hsetup, Hcode; try discriminate;
    inversion Hcode; subst code; try congruence;
    eexists; rewrite Hres.
  - exists [], []. repeat split. now left.
  - eexists [_], [_]. repeat split. right. now eexists.
  - eexists [_; _], [_]. repeat split. right. now eexists.
Qed.


End Properties.

(** * Runs on the scripted SDK *)

(** C8 on an initialised program. *)
Lemma Initialize_idempotent_witness :
  g_bInitialized (ready office) = true /\
  Initialize (ready office) =
    (<["message" := JSString "Already initialized"]>
       (<["success" := JSBool true]> ∅), ready office) /\
  issued (ready office) (Initialize (ready office)).2 = [].
Proof.
  split; [reflexivity|].
  apply (Initialize_idempotent (ready office)). reflexivity.
Defined.

(** C9 with a driver that cannot report its device count. *)
Lemma GetScanners_never_fails_witness :
  (call_PfuSsGetDeviceCount 0 (ready unplugged)).1.1 <> SS_SUCCESS /\
  (GetScanners (ready unplugged)).1 = ∅ /\
  (call getScanners 0 (ready unplugged)).1 = Some (JSArr ∅).
Proof.
  assert ((call_PfuSsGetDeviceCount 0 (ready unplugged)).1.1 <> SS_SUCCESS) as H
    by (vm_compute; discriminate).
  split; [exact H|].
  destruct (GetScanners_never_fails (ready unplugged) 0) as (Harr & Hcall & _);
    [right; left; exact H|].
  split; [exact Harr | exact Hcall].
Defined.

(** C5 on the first of two devices. *)
Lemma GetScanners_records_witness :
  (GetScanners (ready office)).1 !! 0 =
    Some (<["serialNumber" := JSString "A1"]>
            (<["vendor" := JSString "Ricoh/Fujitsu"]>
               (<["name" := JSString "fi-7160"]>
                  (<["id" := JSNumber 0]> ∅)))).
Proof.
  destruct (GetScanners_records (ready office) 2 0) as (r & info & Hev & H);
    [reflexivity | reflexivity | lia |].
  destruct (Hev 0 {| szModelName := "fi-7160"; szSerialNumber := "A1" |})
    as [Hfwd _].
  destruct Hfwd as [<- <-]; [vm_compute; right; left; reflexivity|].
  simpl in H. destruct H as (id & -> & _ & _ & H). exact H.
Defined.

(** C3 on a scan of three sheets. *)
Lemma Scan_call_order_witness :
  g_bInitialized (ready office) = true /\
  ScanTrace 0 (scan_param a_scan)
    (issued (ready office) (Scan 10 a_scan_info (ready office)).2) /\
  closes (issued (ready office) (Scan 10 a_scan_info (ready office)).2) = 1%nat.
Proof.
  split; [reflexivity|].
  pose proof (Scan_call_order 10 a_scan_info a_scan (ready office) eq_refl eq_refl) as H.
  destruct (Scan 10 a_scan_info (ready office)).1 eqn:Hres; [|vm_compute in Hres; discriminate].
  destruct H as [Htrace Hclose]. split; [exact Htrace|].
  apply (Hclose 42). reflexivity.
Defined.

(** C4 on a scan of three sheets. *)
Lemma Scan_success_witness :
  g_bInitialized (ready office) = true /\
  (Scan 4 a_scan_info (ready office)).1 =
    Some (Returned
            (<["outputPath" := JSString "out.pdf"]>
               (<["pageCount" := JSNumber 3]>
                  (<["success" := JSBool true]> ∅)))).
Proof.
  split; [reflexivity|].
  eapply (Scan_success 4 a_scan_info a_scan (ready office) _ _ _ _ 3);
    [reflexivity | reflexivity | reflexivity | reflexivity | reflexivity |
    | vm_compute; discriminate | lia].
  eapply delivered_page; [reflexivity | reflexivity |].
  eapply delivered_page; [reflexivity | reflexivity |].
  eapply delivered_page; [reflexivity | reflexivity |].
  eapply delivered_none; [reflexivity | vm_compute; discriminate].
Defined.

(** C10 on a colour, duplex scan. *)
Lemma Scan_configures_witness :
  SS_PIXELTYPE_COLOR <> SS_PIXELTYPE_GRAY /\
  g_bInitialized (ready office) = true /\
  exists h r,
    In (EvSetScanParam h (scan_param a_scan) r)
       (issued (ready office) (Scan 10 a_scan_info (ready office)).2) /\
    dwPixelType (scan_param a_scan) = SS_PIXELTYPE_COLOR /\
    dwDuplex (scan_param a_scan) = SS_DUPLEX_ON /\
    dwPaperSize (scan_param a_scan) = SS_PAPERSIZE_A4.
Proof.
  split; [vm_compute; discriminate|]. split; [reflexivity|].
  destruct (Scan_configures 10 a_scan_info a_scan (ready office)) as [Hall Hex];
    [vm_compute; discriminate | vm_compute; discriminate | vm_compute; discriminate
    | vm_compute; discriminate | reflexivity | reflexivity |].
  destruct (Hex eq_refl) as (h & r & Hin). exists h, r.
  destruct (Hall _ _ _ Hin) as (Hpaper & Hcolor & _ & _ & Hduplex).
  split; [exact Hin|]. split; [now apply Hcolor|].
  split; [now apply Hduplex | exact Hpaper].
Defined.




(** C1 fails on the code.  The driver rejects the scan parameters: [Scan]
    closes the device at line 143 and returns without resetting
    [g_hScanner], so the closed handle [42] stays in the global, and the
    [Cleanup] that follows closes it a second time.  A scan that goes
    through does reset the global (line 179). *)
Lemma Scan_configure_failure_keeps_handle :
  let st := (Scan 0 a_scan_info (ready office_bad_param)).2 in
  g_hScanner st = 42 /\ g_hScanner st <> NULL /\
  issued (ready office_bad_param) st =
    [EvOpenDevice 0 0 42; EvSetScanParam 42 (scan_param a_scan) 7; EvCloseDevice 42] /\
  issued st (Cleanup st).2 = [EvCloseDevice 42; EvUninitialize] /\
  g_hScanner (Scan 4 a_scan_info (ready office)).2 = NULL.
Proof. vm_compute. repeat split. discriminate. Qed.

(** * The lifecycle beyond single calls *)

Section Lifecycle.

Context {api : PfuSsApi}.

Ltac same_calls :=
  rewrite <- ?app_assoc; simpl; rewrite <- ?app_assoc, ?app_nil_r; reflexivity.

Ltac in_log Hin :=
  rewrite ?in_app_iff in Hin; simpl in Hin;
  repeat match type of Hin with
         | _ \/ _ => destruct Hin as [Hin | Hin]
         end.

(** ** [Initialize] and [Cleanup] *)

(** X1. The [success] flag [Initialize] returns is the value of
    [g_bInitialized] it leaves behind: the SDK stays initialised if it
    was, and otherwise becomes initialised exactly when [PfuSsInitialize]
    answers [SS_SUCCESS]. *)
Theorem Initialize_success_flag (st : State) :
  (Initialize st).1 !! "success" = Some (JSBool (g_bInitialized (Initialize st).2)) /\
  g_bInitialized (Initialize st).2 =
    (if g_bInitialized st then true
     else (call_PfuSsInitialize st).1 =? SS_SUCCESS).
Proof.
  pose proof (Initialize_cases st) as [_ H].
  destruct (g_bInitialized st) eqn:Hb.
  - rewrite H. simpl. now rewrite Hb.
  - destruct H as (r & Hr & _ & H). rewrite Hr.
    destruct (r =? SS_SUCCESS); destruct H as [-> ->]; split; reflexivity.
Qed.

(** X2. A failed [Initialize] can be tried again: the binding is left
    uninitialised, so the next [Initialize] calls [PfuSsInitialize] once
    more, and nothing else. *)
Theorem Initialize_retry (st : State) :
  g_bInitialized st = false ->
  (Initialize st).1 !! "success" = Some (JSBool false) ->
  let st1 := (Initialize st).2 in
  g_bInitialized st1 = false /\
  issued st1 (Initialize st1).2 = [EvInitialize (call_PfuSsInitialize st1).1].
Proof.
  intros Hb Hfail st1.
  assert (g_bInitialized st1 = false) as Hb1.
  { pose proof (Initialize_cases st) as [_ H]. rewrite Hb in H.
    destruct H as (r & _ & _ & H).
    destruct (r =? SS_SUCCESS); destruct H as [H Hres]; [|exact H].
    rewrite Hres in Hfail. discriminate. }
  split; [exact Hb1|].
  pose proof (Initialize_cases st1) as [_ H]. rewrite Hb1 in H.
  destruct H as (r & <- & Hc & _). now apply issued_app.
Qed.

(** X3. What the operations leave alone: [Initialize] and [GetScanners]
    never write [g_hScanner], and neither [GetScanners] nor [Scan] ever
    changes [g_bInitialized]; only [Cleanup] clears it. *)
Theorem globals_left_alone (st : State) (fuel : nat) (info : CallbackInfo) :
  g_hScanner (Initialize st).2 = g_hScanner st /\
  g_hScanner (GetScanners st).2 = g_hScanner st /\
  g_bInitialized (GetScanners st).2 = g_bInitialized st /\
  g_bInitialized (Scan fuel info st).2 = g_bInitialized st.
Proof.
  split; [apply Initialize_cases|].
  destruct (g_bInitialized st) eqn:Hb.
  - destruct (GetScanners_cases st Hb) as (_ & _ & _ & Hh & Hi & _).
    repeat split; [exact Hh | exact Hi |].
    destruct (read_options info) as [options|] eqn:Hopts.
    + now destruct (Scan_cases fuel info options st Hb Hopts) as [Hs _].
    + now rewrite Scan_throws.
  - rewrite GetScanners_uninitialized, Scan_uninitialized by exact Hb.
    now repeat split.
Qed.

(** X4. Initialisation and clean-up are balanced.  From a program with no
    open device and no initialised SDK, [Initialize] followed by [Cleanup]
    calls [PfuSsUninitialize] exactly when [PfuSsInitialize] succeeded,
    closes no device, and ends with both globals reset. *)
Theorem Initialize_Cleanup_balanced (st : State) :
  g_hScanner st = NULL ->
  g_bInitialized st = false ->
  let st2 := (Cleanup (Initialize st).2).2 in
  let r := (call_PfuSsInitialize st).1 in
  issued st st2 =
    EvInitialize r :: (if r =? SS_SUCCESS then [EvUninitialize] else []) /\
  g_hScanner st2 = NULL /\ g_bInitialized st2 = false.
Proof.
  intros Hh Hb st2 r.
  destruct (Cleanup_cases (Initialize st).2) as (Hh2 & Hb2 & Hc2).
  fold st2 in Hh2, Hb2, Hc2. repeat split; [|exact Hh2 | exact Hb2].
  pose proof (Initialize_cases st) as [Hh1 H]. rewrite Hb in H.
  destruct H as (r' & Hr & Hc1 & H). fold r in Hr. subst r'.
  apply issued_app. rewrite Hc2, Hc1, Hh1, Hh. simpl.
  destruct (r =? SS_SUCCESS); destruct H as [-> _]; same_calls.
Qed.

(** ** [GetScanners] *)

(** X5. Nothing is invented in the array [GetScanners] returns: a record
    found at position [i] is the record of device [i], the device-count
    query succeeded with a count above [i], and the device-info query for
    [i] was made and succeeded. *)
Theorem GetScanners_entries (st : State) (i : Z) (o : JSObject) :
  (GetScanners st).1 !! i = Some o ->
  let evs := issued st (GetScanners st).2 in
  exists (n : DWORD) (info : SS_DEVICE_INFO),
    0 <= i < n /\
    In (EvGetDeviceCount SS_SUCCESS n) evs /\
    In (EvGetDeviceInfo i SS_SUCCESS info) evs /\
    o = scanner_object i info.
Proof.
  intros Hlook evs. unfold evs.
  destruct (g_bInitialized st) eqn:Hb.
  2:{ rewrite GetScanners_uninitialized in Hlook by exact Hb. discriminate. }
  destruct (GetScanners_cases st Hb)
    as (r & n & _ & _ & _ & [(_ & Harr & _) | (-> & Hn & answers & Hlen & Hc & Hout & Hin)]).
  { rewrite Harr in Hlook. discriminate. }
  assert (0 <= i < n) as Hi.
  { destruct (Z.lt_ge_cases i 0) as [Hneg | Hpos];
      [rewrite Hout in Hlook by lia; discriminate|].
    destruct (Z.lt_ge_cases i n) as [Hlt | Hge]; [lia|].
    rewrite Hout in Hlook by lia. discriminate. }
  destruct (lookup_lt_is_Some_2 answers (Z.to_nat i)) as [[r info] Hk]; [lia|].
  specialize (Hin _ _ _ Hk). rewrite Z2Nat.id, Hlook in Hin by lia.
  destruct (r =? SS_SUCCESS) eqn:Hr; [|discriminate].
  apply Z.eqb_eq in Hr. subst r. inversion Hin; subst o.
  exists n, info. rewrite (issued_app _ _ _ Hc).
  repeat split; try lia; [now left|].
  right. apply In_queries. exists (Z.to_nat i). split; [lia | exact Hk].
Qed.

(** X6. When the device count [n] is read successfully and is not zero,
    [GetScanners] makes exactly [n] device-info queries after it, for the
    indices [0 .. n-1] in that order; a query that fails does not end the
    enumeration. *)
Theorem GetScanners_queries (st : State) (n : DWORD) :
  g_bInitialized st = true ->
  (call_PfuSsGetDeviceCount 0 st).1 = (SS_SUCCESS, n) ->
  n <> 0 ->
  exists answers : list (DWORD * SS_DEVICE_INFO),
    length answers = Z.to_nat n /\
    issued st (GetScanners st).2 =
      EvGetDeviceCount SS_SUCCESS n :: queries 0 answers /\
    length (issued st (GetScanners st).2) = S (Z.to_nat n).
Proof.
  intros Hb Hq Hn.
  destruct (GetScanners_cases st Hb)
    as (r & n' & Hq' & _ & _ & [([Hr | Hz] & _) | (_ & _ & answers & Hlen & Hc & _)]);
    rewrite Hq in Hq'; inversion Hq'; subst r n'; [congruence | congruence |].
  assert (forall (a : list (DWORD * SS_DEVICE_INFO)) i,
             length (queries i a) = length a) as Hqlen.
  { induction a as [|[r info] a IH]; intros i; simpl; [reflexivity|].
    now rewrite IH. }
  exists answers. rewrite (issued_app _ _ _ Hc). simpl.
  now rewrite Hqlen, Hlen.
Qed.

(** ** [Scan] *)

(** The three kinds of record a finished [Scan] returns, with where each
    comes from. *)
Lemma Scan_results (fuel : nat) (info : CallbackInfo) (st : State) (r : JSObject) :
  (Scan fuel info st).1 = Some (Returned r) ->
  let st' := (Scan fuel info st).2 in
  (g_bInitialized st = false /\ st' = st /\
   r = <["error" := JSString "SDK not initialized"]>
         (<["success" := JSBool false]> ∅))
  \/ (g_bInitialized st = true /\
      exists message code e,
        r = failure_record message code /\
        In e (issued st st') /\ is_setup_call e = true /\
        ret_code e = Some code /\ code <> SS_SUCCESS)
  \/ (g_bInitialized st = true /\ g_hScanner st' = NULL /\
      exists options (n : nat) evs,
        read_options info = Some options /\
        r = scanned_record (count_up n 0) (outputPath options) /\
        0 <= count_up n 0 + 2 ^ 31 < 2 ^ 32 /\
        calls st' = calls st ++ evs /\ closes evs = 1%nat).
Proof.
  intros Hres st'. unfold st'.
  destruct (g_bInitialized st) eqn:Hb.
  2:{ left. rewrite Scan_uninitialized in * by exact Hb. simpl in *.
      inversion Hres. now repeat split. }
  right.
  destruct (read_options info) as [options|] eqn:Hopts.
  2:{ rewrite Scan_throws in Hres by assumption. discriminate. }
  destruct (Scan_cases fuel info options st Hb Hopts) as
    (_ & [(c & h & Hc & _ & _ & Hr & Hlog) | [(c & h & Hc & _ & Hr & Hlog)
       | [(c & h & Hc & _ & Hr & Hlog) | [(c & h & n & Hc & _ & Hh & Hr & Hlog)
       | (h & Hr & _)]]]]);
    rewrite Hr in Hres; inversion Hres; subst r; clear Hres.
  - left. split; [reflexivity|].
    eexists _, c, (EvOpenDevice _ c h). rewrite (issued_app _ _ _ Hlog).
    repeat split; [now left | exact Hc].
  - left. split; [reflexivity|].
    eexists _, c, (EvSetScanParam h _ c). rewrite (issued_app _ _ _ Hlog).
    repeat split; [right; now left | exact Hc].
  - left. split; [reflexivity|].
    eexists _, c, (EvStartScan h c). rewrite (issued_app _ _ _ Hlog).
    repeat split; [right; right; now left | exact Hc].
  - right. split; [reflexivity|]. split; [exact Hh|].
    eexists options, n, _. split; [reflexivity|]. split; [reflexivity|].
    split; [|split; [exact Hlog|]].
    + destruct n as [|n]; [unfold count_up; simpl; lia|].
      unfold count_up. rewrite Nat.iter_succ. unfold to_int.
      match goal with
      | |- context [?a mod ?b] => pose proof (Z.mod_pos_bound a b) as Hm
      end.
      lia.
    + unfold closes. simpl.
      now rewrite List.filter_app, pulled_no_close.
Qed.

(** X7. The record of a finished [Scan] always carries [success].  When
    it is [true] the record carries [pageCount] and the caller's
    [outputPath] and no [error] or [errorCode]; when it is [false] it
    carries an [error] message and no [pageCount] or [outputPath], and
    [errorCode] is missing exactly when the SDK was not initialised. *)
Theorem Scan_result_shape
    (fuel : nat) (info : CallbackInfo) (st : State) (r : JSObject) :
  (Scan fuel info st).1 = Some (Returned r) ->
  (r !! "success" = Some (JSBool true) /\
   (exists n, r !! "pageCount" = Some (JSNumber n)) /\
   (exists options,
       read_options info = Some options /\
       r !! "outputPath" = Some (JSString (outputPath options))) /\
   r !! "error" = None /\ r !! "errorCode" = None)
  \/ (r !! "success" = Some (JSBool false) /\
      (exists message, r !! "error" = Some (JSString message)) /\
      r !! "pageCount" = None /\ r !! "outputPath" = None /\
      (g_bInitialized st = false <-> r !! "errorCode" = None)).
Proof.
  intros Hres.
  destruct (Scan_results fuel info st r Hres)
    as [(Hb & _ & ->) | [(Hb & message & code & e & -> & _)
       | (Hb & _ & options & n & evs & Hopts & -> & _)]].
  - right. repeat split; try reflexivity; try (now eexists). now intros _.
  - right. unfold failure_record. repeat split; try reflexivity;
      try (now eexists).
    + rewrite Hb. discriminate.
    + intros H. now simplify_map_eq.
  - left. unfold scanned_record.
    split; [reflexivity|]. split; [now eexists|].
    split; [exists options; now split|]. now split.
Qed.

(** X8. After a [Scan] that reports success the handle is reset, so the
    [Cleanup] that follows only uninitialises the SDK: over the scan and
    the clean-up together the device is closed exactly once. *)
Theorem Scan_then_Cleanup
    (fuel : nat) (info : CallbackInfo) (st : State) (r : JSObject) :
  (Scan fuel info st).1 = Some (Returned r) ->
  r !! "success" = Some (JSBool true) ->
  let st' := (Scan fuel info st).2 in
  g_hScanner st' = NULL /\
  issued st' (Cleanup st').2 = [EvUninitialize] /\
  closes (issued st (Cleanup st').2) = 1%nat.
Proof.
  intros Hres Hok st'.
  destruct (Scan_results fuel info st r Hres)
    as [(_ & _ & ->) | [(_ & message & code & e & -> & _)
       | (Hb & Hh & options & n & evs & Hopts & _ & _ & Hlog & Hclose)]];
    [discriminate | discriminate |].
  fold st' in Hh, Hlog.
  destruct (Cleanup_cases st') as (_ & _ & Hc).
  assert (g_bInitialized st' = true) as Hb'
    by apply (Scan_cases fuel info options st Hb Hopts).
  rewrite Hh, Hb' in Hc. simpl in Hc.
  repeat split; [exact Hh | now apply issued_app |].
  rewrite (issued_app st _ (evs ++ [EvUninitialize])).
  - unfold closes in *. rewrite List.filter_app, length_app. simpl. lia.
  - rewrite Hc, Hlog. now rewrite <- app_assoc.
Qed.

(** ** Error codes and parameters across the boundary *)

Lemma to_DWORD_to_int (z : Z) : to_DWORD (to_int z) = to_DWORD z.
Proof.
  unfold to_DWORD, to_int.
  rewrite Zminus_mod, Zmod_mod, <- Zminus_mod. f_equal. lia.
Qed.

Lemma to_int_range (z : Z) : - 2 ^ 31 <= to_int z <= INT_MAX.
Proof.
  unfold to_int, INT_MAX.
  pose proof (Z.mod_pos_bound (z + 2 ^ 31) (2 ^ 32)). lia.
Qed.

(** X9. An [errorCode] handed to the host is never made up: whenever the
    record returned by an exported operation carries one, a set-up call
    of that very run answered with a code other than [SS_SUCCESS], and
    the [errorCode] is that code cast to [int]: it lies in the range of
    [int] and gives the vendor's code back modulo [2^32]. *)
Theorem errorCode_origin
    (f : Exported) (fuel : nat) (st : State) (o : JSObject) (c : Z) :
  (call f fuel st).1 = Some (JSObj o) ->
  o !! "errorCode" = Some (JSNumber c) ->
  exists e code,
    In e (issued st (call f fuel st).2) /\
    is_setup_call e = true /\ ret_code e = Some code /\ code <> SS_SUCCESS /\
    c = to_int code /\ to_DWORD c = to_DWORD code /\
    - 2 ^ 31 <= c <= INT_MAX.
Proof.
  intros Hres Hcode. destruct f as [| |info|]; unfold call, bind in *.
  - destruct (Initialize st) as [o' st'] eqn:Hrun. simpl in *.
    inversion Hres; subst o'; clear Hres.
    pose proof (Initialize_cases st) as [_ H]. rewrite Hrun in H. simpl in H.
    destruct (g_bInitialized st).
    { inversion H; subst. now simplify_map_eq. }
    destruct H as (r & _ & Hc & H).
    destruct (r =? SS_SUCCESS) eqn:Hr; destruct H as [_ ->].
    { now simplify_map_eq. }
    unfold failure_record in Hcode. simplify_map_eq.
    exists (EvInitialize r), r. rewrite (issued_app _ _ _ Hc).
    repeat split; try (now left); try apply to_int_range.
    + now apply Z.eqb_neq.
    + apply to_DWORD_to_int.
  - destruct (GetScanners st). discriminate.
  - destruct (Scan fuel info st) as [[[r|]|] st'] eqn:Hrun;
      [|discriminate|discriminate].
    simpl in *. inversion Hres; subst r; clear Hres.
    pose proof (Scan_results fuel info st o) as H. rewrite Hrun in H.
    destruct (H eq_refl)
      as [(_ & _ & ->) | [(_ & message & code & e & -> & Hin & Hs & Hr & Hne)
         | (_ & _ & options & n & evs & _ & -> & _)]]; clear H.
    + now simplify_map_eq.
    + unfold failure_record in Hcode. simplify_map_eq.
      exists e, code. repeat split; try assumption; try apply to_int_range.
      apply to_DWORD_to_int.
    + unfold scanned_record in Hcode. now simplify_map_eq.
  - destruct (Cleanup st). discriminate.
Qed.

(** X10. [Scan] hands the [resolution] read from the options to the
    vendor without checking it: the [dwResolution] of every [PfuSsSetScanParam] call is
    the [int] read as a [DWORD], that is the value itself when it is not
    negative and [2^32] more when it is. *)
Theorem Scan_passes_resolution
    (fuel : nat) (info : CallbackInfo) (options : ScanOptions) (st : State)
    (h : HANDLE) (p : SS_SCAN_PARAM) (r : DWORD) :
  read_options info = Some options ->
  In (EvSetScanParam h p r) (issued st (Scan fuel info st).2) ->
  dwResolution p = resolution options mod 2 ^ 32 /\
  (0 <= resolution options <= INT_MAX -> dwResolution p = resolution options) /\
  (- 2 ^ 31 <= resolution options < 0 ->
   dwResolution p = resolution options + 2 ^ 32).
Proof.
  intros Hopts Hin.
  destruct (g_bInitialized st) eqn:Hb.
  2:{ rewrite Scan_uninitialized in Hin by exact Hb.
      rewrite issued_none in Hin by reflexivity. destruct Hin. }
  destruct (Scan_param_events fuel info options st Hb Hopts) as [Hall _].
  rewrite (Hall h p r Hin). simpl. unfold to_DWORD, INT_MAX.
  repeat split.
  - intros Hr. apply Z.mod_small. lia.
  - intros Hr. rewrite <- (Z_mod_plus_full (resolution options) 1 (2 ^ 32)).
    apply Z.mod_small. lia.
Qed.

(** ** The page loop and its bound *)

Lemma pull_pages_endless :
  (forall h img s, to_DWORD (PfuSsGetImageData h img s).1.1 = SS_SUCCESS) ->
  forall (fuel : nat) (pageCount : Z) (imageData : SS_IMAGE_DATA) (st : State),
    (pull_pages fuel pageCount imageData st).1 = None.
Proof.
  intros Hfeed. induction fuel as [|fuel IH]; intros pageCount imageData st;
    [reflexivity|].
  simpl. unfold bind, read_g_hScanner, call_PfuSsGetImageData.
  specialize (Hfeed (g_hScanner st) imageData (sdk st)).
  destruct (PfuSsGetImageData (g_hScanner st) imageData (sdk st)) as [[r img1] s1].
  simpl in Hfeed. rewrite Hfeed, Z.eqb_refl.
  destruct (call_PfuSsFreeImageData img1 _) as [img2 st2]. apply IH.
Qed.

(** X12. [Scan] has no page limit of its own.  With options that
    convert and a vendor whose
    [PfuSsGetImageData] reports success on every call, a scan that got
    started is still pulling pages after any number of loop tests: within
    every bound it has pulled that many pages and has not come to its
    end. *)
Theorem Scan_never_ends_on_endless_feed
    (fuel : nat) (info : CallbackInfo) (options : ScanOptions)
    (st st1 st2 st3 : State) :
  (forall h img s, to_DWORD (PfuSsGetImageData h img s).1.1 = SS_SUCCESS) ->
  g_bInitialized st = true ->
  read_options info = Some options ->
  call_PfuSsOpenDevice (scannerId options) st = (SS_SUCCESS, st1) ->
  call_PfuSsSetScanParam (g_hScanner st1) (scan_param options) st1 = (SS_SUCCESS, st2) ->
  call_PfuSsStartScan (g_hScanner st2) st2 = (SS_SUCCESS, st3) ->
  (Scan fuel info st).1 = None /\
  issued st3 (Scan fuel info st).2 = pulled (g_hScanner st3) fuel.
Proof.
  intros Hfeed Hinit Hopts Hopen Hset Hstart.
  unfold Scan, bind, read_g_bInitialized, read_g_hScanner.
  cbv beta iota. rewrite Hinit. cbn [negb]. rewrite Hopts.
  rewrite Hopen, Z.eqb_refl. cbn [negb]. cbv beta iota.
  rewrite Hset, Z.eqb_refl. cbn [negb]. cbv beta iota.
  rewrite Hstart, Z.eqb_refl. cbn [negb]. cbv beta iota.
  pose proof (pull_pages_endless Hfeed fuel 0 zero_image_data st3) as Hnone.
  pose proof (pull_pages_spec fuel 0 zero_image_data st3) as Hspec.
  destruct (pull_pages fuel 0 zero_image_data st3) as [[pageCount|] st4];
    simpl in *; [discriminate|].
  destruct Hspec as (_ & _ & Hc). split; [reflexivity | now apply issued_app].
Qed.

End Lifecycle.

(** * Lifecycle runs on the scripted SDK *)

(** X2 with a driver that refuses to initialise. *)
Lemma Initialize_retry_witness :
  g_bInitialized (boot no_driver) = false /\
  issued (Initialize (boot no_driver)).2
         (Initialize (Initialize (boot no_driver)).2).2 = [EvInitialize 3].
Proof.
  split; [reflexivity|].
  destruct (Initialize_retry (boot no_driver)) as [_ H];
    [reflexivity | vm_compute; reflexivity | exact H].
Defined.

(** X4 on a fresh program. *)
Lemma Initialize_Cleanup_balanced_witness :
  g_hScanner (boot office) = NULL /\
  issued (boot office) (Cleanup (Initialize (boot office)).2).2 =
    [EvInitialize 0; EvUninitialize].
Proof.
  split; [reflexivity|].
  destruct (Initialize_Cleanup_balanced (boot office)) as [H _];
    [reflexivity | reflexivity | exact H].
Defined.

(** X5 on the first of two devices. *)
Lemma GetScanners_entries_witness :
  exists n info,
    0 <= 0 < n /\
    In (EvGetDeviceInfo 0 SS_SUCCESS info)
       (issued (ready office) (GetScanners (ready office)).2).
Proof.
  destruct (GetScanners_entries (ready office) 0
              (scanner_object 0 {| szModelName := "fi-7160"; szSerialNumber := "A1" |}))
    as (n & info & Hi & _ & Hin & _); [vm_compute; reflexivity|].
  now exists n, info.
Defined.

(** X6 on two devices, the second of which cannot be queried. *)
Lemma GetScanners_queries_witness :
  g_bInitialized (ready office) = true /\
  length (issued (ready office) (GetScanners (ready office)).2) = 3%nat.
Proof.
  split; [reflexivity|].
  destruct (GetScanners_queries (ready office) 2) as (answers & _ & _ & H);
    [reflexivity | reflexivity | discriminate | exact H].
Defined.

(** X7 on a scan of three sheets. *)
Lemma Scan_result_shape_witness :
  let r : JSObject :=
    <["outputPath" := JSString "out.pdf"]>
      (<["pageCount" := JSNumber 3]> (<["success" := JSBool true]> ∅)) in
  (Scan 4 a_scan_info (ready office)).1 = Some (Returned r) /\ r !! "errorCode" = None.
Proof.
  intros r.
  assert ((Scan 4 a_scan_info (ready office)).1 = Some (Returned r)) as Hres
    by (vm_compute; reflexivity).
  split; [exact Hres|].
  destruct (Scan_result_shape 4 a_scan_info (ready office) r Hres)
    as [(_ & _ & _ & _ & H) | (H & _)]; [exact H | vm_compute in H; discriminate].
Defined.

(** X8 on a scan of three sheets. *)
Lemma Scan_then_Cleanup_witness :
  closes (issued (ready office)
            (Cleanup (Scan 4 a_scan_info (ready office)).2).2) = 1%nat.
Proof.
  destruct (Scan_then_Cleanup 4 a_scan_info (ready office)
              (<["outputPath" := JSString "out.pdf"]>
                 (<["pageCount" := JSNumber 3]> (<["success" := JSBool true]> ∅))))
    as (_ & _ & H); [vm_compute; reflexivity | vm_compute; reflexivity | exact H].
Defined.

(** X9 with a driver that rejects the scan parameters with code [7]. *)
Lemma errorCode_origin_witness :
  exists e code,
    In e (issued (ready office_bad_param)
            (call (scan a_scan_info) 0 (ready office_bad_param)).2) /\
    ret_code e = Some code /\ 7 = to_int code.
Proof.
  destruct (errorCode_origin (scan a_scan_info) 0 (ready office_bad_param)
              (failure_record "Failed to set scan parameters" 7) 7)
    as (e & code & Hin & _ & Hret & _ & Hc & _);
    [vm_compute; reflexivity | vm_compute; reflexivity |].
  now exists e, code.
Defined.

(** X10 on a scan at 300 dpi. *)
Lemma Scan_passes_resolution_witness :
  dwResolution (scan_param a_scan) = 300.
Proof.
  destruct (Scan_passes_resolution 4 a_scan_info a_scan (ready office)
              42 (scan_param a_scan) 0)
    as (_ & H & _); [reflexivity | vm_compute; right; left; reflexivity|].
  apply H. vm_compute. split; discriminate.
Defined.

(** X12 on the vendor whose feeder never runs empty. *)
Lemma Scan_never_ends_on_endless_feed_witness :
  (@Scan endless 5 a_scan_info (ready_endless office)).1 = None.
Proof.
  eapply (@Scan_never_ends_on_endless_feed endless 5 a_scan_info a_scan
            (ready_endless office));
    [intros h img s; reflexivity | reflexivity | reflexivity
    | reflexivity | reflexivity | reflexivity].
Defined.

(** * Where the answers in the log come from *)

Section Provenance.

Context {api : PfuSsApi}.

(** Every device-info entry in the log of the enumeration is an answer
    the vendor gave to that query. *)
Lemma enumerate_answers (rounds : nat) :
  forall (i dwScannerCount : DWORD) (scanners : JSArray) (st : State),
    exists evs,
      calls (enumerate rounds i dwScannerCount scanners st).2 = calls st ++ evs /\
      Forall (fun e => exists j s,
                  e = EvGetDeviceInfo j
                        (to_DWORD (PfuSsGetDeviceInfo j zero_device_info s).1.1)
                        (PfuSsGetDeviceInfo j zero_device_info s).1.2) evs.
Proof.
  induction rounds as [|rounds IH]; intros i cnt scanners st.
  - exists []. split; [simpl; now rewrite app_nil_r | constructor].
  - simpl. destruct (i <? cnt).
    2:{ exists []. split; [simpl; now rewrite app_nil_r | constructor]. }
    unfold bind, call_PfuSsGetDeviceInfo.
    destruct (PfuSsGetDeviceInfo i zero_device_info (sdk st)) as [[r info] s1] eqn:Hv.
    match goal with
    | |- context [enumerate rounds ?a ?b ?c ?d] =>
        destruct (IH a b c d) as (evs & Hc & Hall)
    end.
    exists (EvGetDeviceInfo i (to_DWORD r) info :: evs). split.
    + rewrite Hc. simpl. now rewrite <- app_assoc.
    + constructor; [|exact Hall]. exists i, (sdk st). now rewrite Hv.
Qed.

Lemma GetScanners_answers (st : State) (e : SdkCall) :
  In e (issued st (GetScanners st).2) ->
  (exists r n, e = EvGetDeviceCount r n) \/
  exists j s,
    e = EvGetDeviceInfo j
          (to_DWORD (PfuSsGetDeviceInfo j zero_device_info s).1.1)
          (PfuSsGetDeviceInfo j zero_device_info s).1.2.
Proof.
  unfold GetScanners, bind, read_g_bInitialized. simpl.
  destruct (g_bInitialized st); simpl.
  2:{ rewrite issued_none by reflexivity. intros []. }
  unfold call_PfuSsGetDeviceCount.
  destruct (PfuSsGetDeviceCount 0 (sdk st)) as [[r n] s1].
  destruct (negb (to_DWORD r =? SS_SUCCESS) || (to_DWORD n =? 0)).
  - rewrite (issued_app _ _ [EvGetDeviceCount (to_DWORD r) (to_DWORD n)])
      by reflexivity.
    intros [<- | []]. left. now eexists _, _.
  - match goal with
    | |- context [enumerate ?a ?b ?c ?d ?x] =>
        destruct (enumerate_answers a b c d x) as (evs & Hc & Hall)
    end.
    rewrite (issued_app _ _ (EvGetDeviceCount (to_DWORD r) (to_DWORD n) :: evs)).
    + intros [<- | Hin]; [left; now eexists _, _ | right].
      rewrite Forall_forall in Hall. apply Hall. now apply list_elem_of_In.
    + rewrite Hc. simpl. now rewrite <- app_assoc.
Qed.

End Provenance.

(** C5 as it is worded does not hold: [id] is [(int)i], not [i].  With a
    vendor that reports [2^31 + 1] devices and answers every query, the
    record at position [2147483648] carries the [id] [-2147483648]. *)
Lemma GetScanners_id_wraps :
  ~ (forall (api : PfuSsApi) (st : @State api) (dwScannerCount i : DWORD)
            (info : SS_DEVICE_INFO),
        g_bInitialized st = true ->
        (call_PfuSsGetDeviceCount 0 st).1 = (SS_SUCCESS, dwScannerCount) ->
        0 <= i < dwScannerCount ->
        In (EvGetDeviceInfo i SS_SUCCESS info) (issued st (GetScanners st).2) ->
        (GetScanners st).1 !! i =
          Some (<["serialNumber" := JSString (szSerialNumber info)]>
                  (<["vendor" := JSString "Ricoh/Fujitsu"]>
                     (<["name" := JSString (szModelName info)]>
                        (<["id" := JSNumber i]> ∅))))).
Proof.
  intros Hclaim.
  pose (info := {| szModelName := "fi-7160"; szSerialNumber := "A1" |}).
  destruct (@GetScanners_cases crowded ready_crowded eq_refl)
    as (r & n & Hq & _ & _ & [(Hor & _) | (_ & _ & answers & Hlen & Hc & _ & Hin)]).
  { vm_compute in Hq. inversion Hq; subst r n.
    destruct Hor as [Hr | Hn]; [now apply Hr | discriminate Hn]. }
  vm_compute in Hq. inversion Hq; subst r n. clear Hq.
  destruct (lookup_lt_is_Some_2 answers (Z.to_nat 2147483648)) as [[r info'] Hk];
    [rewrite Hlen; lia|].
  assert (In (EvGetDeviceInfo 2147483648 r info')
             (issued ready_crowded (@GetScanners crowded ready_crowded).2)) as Hev.
  { rewrite (issued_app _ _ _ Hc). right. apply In_queries.
    exists (Z.to_nat 2147483648). split; [lia | exact Hk]. }
  destruct (GetScanners_answers _ _ Hev) as [(r0 & n0 & Habs) | (j & s & Heq)];
    [discriminate|].
  inversion Heq; subst r info'. clear Heq.
  specialize (Hin _ _ _ Hk). rewrite Z2Nat.id in Hin by lia.
  change (to_DWORD 0 =? SS_SUCCESS) with true in Hin. cbv beta iota in Hin.
  assert (0 <= 2147483648 < 2147483649) as Hi by lia.
  specialize (Hclaim crowded ready_crowded 2147483649 2147483648 info
                eq_refl eq_refl Hi Hev).
  pose proof (eq_trans (eq_sym Hin) Hclaim) as Hsame.
  apply (f_equal (fun o => o ≫= (fun r : JSObject => r !! "id"))) in Hsame.
  vm_compute in Hsame. discriminate Hsame.
Qed.
